(** * TestWings tools: a shallow embedding of the command-line scripts

    - [tools/check_onnx_inputs.py]   the graph input classifier,
    - [docs/tools/download_model.py] the model fetcher,
    - [tools/verify_official_format.py] the chat template verifier,
    - [tools/chat_onnx_reference.py] the reference fragments of a
      generation step.

    The scripts are linear programs that call a third-party library and
    print.  They are embedded as programs of a small monad that threads the
    state of the outside world, collects the observable events (printed
    lines and library calls) and propagates Python exceptions.  The
    third-party libraries are interfaces (type classes): a theorem holds
    for every implementation of them. *)

From Stdlib Require Import String Ascii ZArith Bool Arith Lia List Sorted.
From Stdlib Require Import DecimalString DecimalPos DecimalZ Permutation.
Import ListNotations.

Open Scope string_scope.
Open Scope list_scope.

(* ===================================================================== *)
(** * Python values and built-ins used by the scripts *)
(* ===================================================================== *)

Module Py.

(** Lower-casing of the ASCII letters: a byte outside 'A'..'Z' is left as
    it is.  This is what [str.lower()] does to text that is ASCII. *)
Definition lower_ascii (c : ascii) : ascii :=
  let n := nat_of_ascii c in
  if ((65 <=? n)%nat && (n <=? 90)%nat)%bool then ascii_of_nat (n + 32) else c.

Fixpoint lower (s : string) : string :=
  match s with
  | EmptyString => EmptyString
  | String c t => String (lower_ascii c) (lower t)
  end.

(** Text of ASCII characters only. *)
Fixpoint is_ascii (s : string) : bool :=
  match s with
  | EmptyString => true
  | String c t => (nat_of_ascii c <? 128)%nat && is_ascii t
  end.

(** [str.lower()] of the interpreter.  A str is held as the bytes of its
    UTF-8 form, on which [==], [in] and [startswith] agree with those of the
    str.  Lower-casing follows the Unicode tables (it sends the Kelvin sign
    U+212A to k), which are not part of the repository: the method is a
    parameter, known by three facts.  On ASCII text it lower-cases the
    letters; an ASCII prefix comes out in place, its letters lower-cased,
    whatever follows it; and lower-casing the ASCII letters of a text first
    does not change the result. *)
Class Str : Type := {
  str_lower : string -> string;
  str_lower_ascii :
    forall s : string, is_ascii s = true -> str_lower s = lower s;
  str_lower_ascii_prefix :
    forall p rest : string,
      is_ascii p = true ->
      exists t, str_lower (p ++ rest) = (lower p ++ t)%string;
  str_lower_of_lower :
    forall s : string, str_lower (lower s) = str_lower s
}.

(** [s.startswith(p)] *)
Definition startswith (p s : string) : bool := String.prefix p s.

(** [sub in s]: [sub] occurs in [s] at some offset. *)
Fixpoint contains (sub s : string) : bool :=
  String.prefix sub s
  || match s with
     | EmptyString => false
     | String _ t => contains sub t
     end.

(** Truth value of a string, of a list and of an optional string
    ([None] and the empty string are false). *)
Definition truthy_str (s : string) : bool :=
  match s with EmptyString => false | String _ _ => true end.

Definition truthy_list {A} (l : list A) : bool :=
  match l with [] => false | _ :: _ => true end.

Definition truthy_opt_str (o : option string) : bool :=
  match o with None => false | Some s => truthy_str s end.

(** [str(n)] for an int. *)
Definition str_int (z : Z) : string := NilZero.string_of_int (Z.to_int z).

(** [sep.join(l)] *)
Definition join (sep : string) (l : list string) : string :=
  String.concat sep l.

(** The slices [l[:k]] and [l[-k:]] (for [k > 0]). *)
Definition slice_to {A} (k : nat) (l : list A) : list A := firstn k l.

Definition slice_last {A} (k : nat) (l : list A) : list A :=
  skipn (length l - k) l.

(** [enumerate(l)] *)
Fixpoint enumerate_from {A} (i : nat) (l : list A) : list (nat * A) :=
  match l with
  | [] => []
  | x :: t => (i, x) :: enumerate_from (S i) t
  end.

Definition enumerate {A} (l : list A) : list (nat * A) := enumerate_from 0 l.

(** [x in l] for a list of strings. *)
Definition mem_str (x : string) (l : list string) : bool :=
  existsb (String.eqb x) l.

(** [posixpath.basename]: what follows the last slash. *)
Fixpoint basename_aux (s acc : string) : string :=
  match s with
  | EmptyString => acc
  | String c t =>
      if Ascii.eqb c "/"%char then basename_aux t EmptyString
      else basename_aux t (acc ++ String c EmptyString)%string
  end.

Definition basename (s : string) : string := basename_aux s EmptyString.

(** Python exceptions.  [except Exception] catches an [Exception] (with
    its message) and lets [SystemExit], raised by [sys.exit], through. *)
Inductive exn : Type :=
| Exception (msg : string)
| SystemExit (code : Z).

End Py.

(* ===================================================================== *)
(** * Programs: world state, events and exceptions *)
(* ===================================================================== *)

Module Prog.
Import Py.

(** A program runs from a state of the outside world and ends with the
    new state, the events it produced and a value or a raised exception. *)
Definition M (W E A : Type) : Type := W -> W * list E * (exn + A).

Definition ret {W E A} (a : A) : M W E A := fun w => (w, [], inr a).

Definition bind {W E A B} (m : M W E A) (f : A -> M W E B) : M W E B :=
  fun w =>
    match m w with
    | (w1, t1, inl e) => (w1, t1, inl e)
    | (w1, t1, inr a) =>
        match f a w1 with
        | (w2, t2, r) => (w2, t1 ++ t2, r)
        end
    end.

Definition emit {W E} (e : E) : M W E unit := fun w => (w, [e], inr tt).

Definition raise {W E A} (e : exn) : M W E A := fun w => (w, [], inl e).

(** [sys.exit(code)] *)
Definition sys_exit {W E A} (code : Z) : M W E A := raise (SystemExit code).

(** [try: body  except Exception as e: handler e] *)
Definition try_except {W E A} (body : M W E A) (handler : string -> M W E A)
  : M W E A :=
  fun w =>
    match body w with
    | (w1, t1, inl (Exception msg)) =>
        match handler msg w1 with
        | (w2, t2, r) => (w2, t1 ++ t2, r)
        end
    | other => other
    end.

(** A library call: the call is an event, carrying its outcome. *)
Definition call {W E A} (op : W -> W * (string + A))
    (ev : string + A -> E) : M W E A :=
  fun w =>
    match op w with
    | (w1, inl msg) => (w1, [ev (inl msg)], inl (Exception msg))
    | (w1, inr a) => (w1, [ev (inr a)], inr a)
    end.

(** Reading the world. *)
Definition read {W E A} (f : W -> A) : M W E A := fun w => (w, [], inr (f w)).

(** Reading the world, where the read can raise. *)
Definition attempt {W E A} (f : W -> string + A) : M W E A :=
  fun w =>
    match f w with
    | inl msg => (w, [], inl (Exception msg))
    | inr a => (w, [], inr a)
    end.

(** [for x in l: body x] *)
Fixpoint for_each {W E A} (l : list A) (body : A -> M W E unit) : M W E unit :=
  match l with
  | [] => ret tt
  | x :: t => bind (body x) (fun _ => for_each t body)
  end.

(** [if c: body] *)
Definition when {W E} (c : bool) (body : M W E unit) : M W E unit :=
  if c then body else ret tt.

Definition trace {W E A} (r : W * list E * (exn + A)) : list E := snd (fst r).
Definition outcome {W E A} (r : W * list E * (exn + A)) : exn + A := snd r.
Definition final {W E A} (r : W * list E * (exn + A)) : W := fst (fst r).

Module Notations.
Notation "x <- m ;; k" := (bind m (fun x => k))
  (at level 61, m at next level, right associativity).
Notation "m ;; k" := (bind m (fun _ => k))
  (at level 61, right associativity).
End Notations.

End Prog.

(* ===================================================================== *)
(** * tools/check_onnx_inputs.py *)
(* ===================================================================== *)

Module CheckOnnxInputs.
Import Py Prog Prog.Notations.

(** ** Data *)

(** One dimension of a declared tensor shape, as the script reads it:
    [dim.dim_value] (0 when unset) and [dim.dim_param] (empty when
    unset). *)
Record Dimension : Type := {
  dim_value : Z;
  dim_param : string
}.

(** One element of [graph.input]. *)
Record ValueInfo : Type := {
  name : string;
  shape_dim : list Dimension;     (* type.tensor_type.shape.dim *)
  elem_type : Z                   (* type.tensor_type.elem_type *)
}.

Record ModelProto : Type := {
  graph_input : list ValueInfo
}.

(** One dimension as the runtime session reports it: an int, a string, or
    another Python value (None). *)
Inductive PyDim : Type :=
| PInt (z : Z)
| PStr (s : string)
| PNone.

(** One element of [session.get_inputs()]. *)
Record NodeArg : Type := {
  arg_name : string;
  arg_shape : list PyDim;
  arg_type : string
}.

(** The libraries the script calls.  A call can raise (the message of the
    exception on the left) and can change the world. *)
Class Libs (W : Type) : Type := {
  onnx_load : string -> W -> W * (string + ModelProto);
  InferenceSession : string -> W -> W * (string + list NodeArg);
  os_path_exists : string -> W -> bool
}.

(** An element of a displayed shape: an int or a string. *)
Inductive ShapeElem : Type :=
| SInt (z : Z)
| SStr (s : string).

(** The dict [input_info]. *)
Record InputInfo : Type := {
  info_name : string;
  info_shape : list ShapeElem;
  info_type : Z
}.

Inductive Category : Type :=
| InputsEmbeds
| AttentionMask
| PositionIds
| PastKeyValues
| Other.

(** The five lists filled by the classification loop. *)
Record Buckets : Type := {
  inputs_embeds_inputs : list InputInfo;
  attention_mask_inputs : list InputInfo;
  position_ids_inputs : list InputInfo;
  past_key_values_inputs : list InputInfo;
  other_inputs : list InputInfo
}.

(** The printed lines, one constructor for each [print] of the script,
    with the values it interpolates. *)
Inductive Line : Type :=
| L_analyzing (path : string)
| L_rule
| L_load_ok
| L_load_failed (e : string)
| L_static_title
| L_total (n : nat)
| L_group (c : Category)
| L_pkv_header (n : nat)
| L_entry (nm shape_str : string)
| L_elided (n : Z)
| L_blank_rule
| L_runtime_title
| L_rt_input (nm : string)
| L_rt_shape (shape : list PyDim)
| L_rt_type (type_str : string)
| L_rt_dynamic (dynamic_dims : list nat)
| L_blank
| L_rt_failed (e : string)
| L_rt_hint_missing
| L_rt_hint_path
| L_not_found
| L_usage_header
| L_usage (argv0 : string)
| L_places_header
| L_place (path : string)
| L_missing (path : string).

Inductive Event : Type :=
| EvPrint (l : Line)
| EvOnnxLoad (path : string) (r : string + ModelProto)
| EvInferenceSession (path : string) (r : string + list NodeArg).

(** ** The static phase *)

(** Line 55: [dim.dim_value if dim.dim_value > 0 else
    (dim.dim_param if dim.dim_param else -1)]. *)
Definition display_dim (dim : Dimension) : ShapeElem :=
  if (dim_value dim >? 0)%Z then SInt (dim_value dim)
  else if truthy_str (dim_param dim) then SStr (dim_param dim)
  else SInt (-1).

(** The display rule in the words of the specification: a positive
    dimension is shown as that integer, otherwise a named dimension as its
    name, otherwise the sentinel -1. *)
Inductive displayed_as : Dimension -> ShapeElem -> Prop :=
| shown_value d :
    (dim_value d > 0)%Z -> displayed_as d (SInt (dim_value d))
| shown_param d :
    (dim_value d <= 0)%Z -> dim_param d <> EmptyString ->
    displayed_as d (SStr (dim_param d))
| shown_unknown d :
    (dim_value d <= 0)%Z -> dim_param d = EmptyString ->
    displayed_as d (SInt (-1)).

(** Lines 54-62. *)
Definition input_info_of (input_tensor : ValueInfo) : InputInfo :=
  {| info_name := name input_tensor;
     info_shape := map display_dim (shape_dim input_tensor);
     info_type := elem_type input_tensor |}.

Section Classification.
Context {S : Str}.

(** Lines 64-73: the conditions of the if / elif chain, in its order. *)
Definition category_of (nm : string) : Category :=
  if contains "inputs_embeds" (str_lower nm) || String.eqb nm "inputs_embeds"
  then InputsEmbeds
  else if contains "attention_mask" (str_lower nm)
          || String.eqb nm "attention_mask"
  then AttentionMask
  else if contains "position_ids" (str_lower nm) || String.eqb nm "position_ids"
  then PositionIds
  else if contains "past_key_values" (str_lower nm)
          || startswith "past_key_values" nm
  then PastKeyValues
  else Other.

End Classification.

Definition no_inputs : Buckets :=
  {| inputs_embeds_inputs := [];
     attention_mask_inputs := [];
     position_ids_inputs := [];
     past_key_values_inputs := [];
     other_inputs := [] |}.

(** The [append] of the branch taken. *)
Definition append_to (c : Category) (info : InputInfo) (b : Buckets) : Buckets :=
  match c with
  | InputsEmbeds =>
      {| inputs_embeds_inputs := inputs_embeds_inputs b ++ [info];
         attention_mask_inputs := attention_mask_inputs b;
         position_ids_inputs := position_ids_inputs b;
         past_key_values_inputs := past_key_values_inputs b;
         other_inputs := other_inputs b |}
  | AttentionMask =>
      {| inputs_embeds_inputs := inputs_embeds_inputs b;
         attention_mask_inputs := attention_mask_inputs b ++ [info];
         position_ids_inputs := position_ids_inputs b;
         past_key_values_inputs := past_key_values_inputs b;
         other_inputs := other_inputs b |}
  | PositionIds =>
      {| inputs_embeds_inputs := inputs_embeds_inputs b;
         attention_mask_inputs := attention_mask_inputs b;
         position_ids_inputs := position_ids_inputs b ++ [info];
         past_key_values_inputs := past_key_values_inputs b;
         other_inputs := other_inputs b |}
  | PastKeyValues =>
      {| inputs_embeds_inputs := inputs_embeds_inputs b;
         attention_mask_inputs := attention_mask_inputs b;
         position_ids_inputs := position_ids_inputs b;
         past_key_values_inputs := past_key_values_inputs b ++ [info];
         other_inputs := other_inputs b |}
  | Other =>
      {| inputs_embeds_inputs := inputs_embeds_inputs b;
         attention_mask_inputs := attention_mask_inputs b;
         position_ids_inputs := position_ids_inputs b;
         past_key_values_inputs := past_key_values_inputs b;
         other_inputs := other_inputs b ++ [info] |}
  end.

Section Loop.
Context {S : Str}.

(** One turn of the loop of lines 53-73. *)
Definition classify_step (b : Buckets) (input_tensor : ValueInfo) : Buckets :=
  append_to (category_of (name input_tensor)) (input_info_of input_tensor) b.

Definition classify (inputs : list ValueInfo) : Buckets :=
  fold_left classify_step inputs no_inputs.

End Loop.

(** The list of a category. *)
Definition bucket (c : Category) (b : Buckets) : list InputInfo :=
  match c with
  | InputsEmbeds => inputs_embeds_inputs b
  | AttentionMask => attention_mask_inputs b
  | PositionIds => position_ids_inputs b
  | PastKeyValues => past_key_values_inputs b
  | Other => other_inputs b
  end.

Definition Category_eqb (c d : Category) : bool :=
  match c, d with
  | InputsEmbeds, InputsEmbeds | AttentionMask, AttentionMask
  | PositionIds, PositionIds | PastKeyValues, PastKeyValues
  | Other, Other => true
  | _, _ => false
  end.

(** ** The listing *)

Definition dquote : string := String (ascii_of_nat 34) EmptyString.

(** [str(d) if isinstance(d, int) else f'"{d}"'] *)
Definition elem_str (d : ShapeElem) : string :=
  match d with
  | SInt z => str_int z
  | SStr s => (dquote ++ s ++ dquote)%string
  end.

(** ['[' + ', '.join(...) + ']'] *)
Definition shape_str (shape : list ShapeElem) : string :=
  ("[" ++ join ", " (map elem_str shape) ++ "]")%string.

(** Lines 79-80 (and 85-86, 91-92, 98-99, 103-104, 109-110): the line
    printed for one input. *)
Definition entry_line (info : InputInfo) : Line :=
  L_entry (info_name info) (shape_str (info_shape info)).

(** The printed lines of a run and the paths of its library calls. *)
Definition lines (t : list Event) : list Line :=
  flat_map (fun ev => match ev with EvPrint l => [l] | _ => [] end) t.

Definition load_calls (t : list Event) : list string :=
  flat_map (fun ev => match ev with EvOnnxLoad p _ => [p] | _ => [] end) t.

Definition session_calls (t : list Event) : list string :=
  flat_map (fun ev => match ev with EvInferenceSession p _ => [p] | _ => [] end) t.

Definition is_entry (l : Line) : bool :=
  match l with L_entry _ _ => true | _ => false end.

Definition is_elided (l : Line) : bool :=
  match l with L_elided _ => true | _ => false end.

Section Programs.
Context {S : Str} {W : Type} `{Libs W}.

Definition print (l : Line) : M W Event unit := emit (EvPrint l).

Definition print_entry (info : InputInfo) : M W Event unit :=
  print (entry_line info).

(** Lines 76-80, 82-86, 88-92 and 106-110. *)
Definition print_group (c : Category) (l : list InputInfo) : M W Event unit :=
  when (truthy_list l)
    (print (L_group c);;
     for_each l print_entry).

(** Lines 94-104. *)
Definition print_past_key_values (l : list InputInfo) : M W Event unit :=
  when (truthy_list l)
    (print (L_pkv_header (length l));;
     for_each (slice_to 3 l) print_entry;;
     when (6 <? length l)%nat
       (print (L_elided (Z.of_nat (length l) - 6)));;
     for_each (slice_last 3 l) print_entry).

(** Lines 36-110. *)
Definition static_phase (model : ModelProto) : M W Event unit :=
  print L_rule;;
  print L_static_title;;
  print L_rule;;
  let inputs := graph_input model in
  print (L_total (length inputs));;
  let b := classify inputs in
  print_group InputsEmbeds (inputs_embeds_inputs b);;
  print_group AttentionMask (attention_mask_inputs b);;
  print_group PositionIds (position_ids_inputs b);;
  print_past_key_values (past_key_values_inputs b);;
  print_group Other (other_inputs b).

(** ** The runtime phase *)

(** Line 132: [isinstance(dim, str) or (isinstance(dim, int) and dim < 0)]. *)
Definition is_dynamic (dim : PyDim) : bool :=
  match dim with PStr _ => true | _ => false end
  || match dim with PInt z => (z <? 0)%Z | _ => false end.

Definition dynamic_dims_of (shape : list PyDim) : list nat :=
  map fst (filter (fun p => is_dynamic (snd p)) (enumerate shape)).

(** The lines of lines 127-135 for one input. *)
Definition input_meta_lines (input_meta : NodeArg) : list Line :=
  [L_rt_input (arg_name input_meta);
   L_rt_shape (arg_shape input_meta);
   L_rt_type (arg_type input_meta)]
  ++ match dynamic_dims_of (arg_shape input_meta) with
     | [] => []
     | dims => [L_rt_dynamic dims]
     end
  ++ [L_blank].

(** Lines 122-135. *)
Definition print_input_meta (input_meta : NodeArg) : M W Event unit :=
  print (L_rt_input (arg_name input_meta));;
  print (L_rt_shape (arg_shape input_meta));;
  print (L_rt_type (arg_type input_meta));;
  let dynamic_dims := dynamic_dims_of (arg_shape input_meta) in
  when (truthy_list dynamic_dims) (print (L_rt_dynamic dynamic_dims));;
  print L_blank.

(** Lines 112-140. *)
Definition runtime_phase (model_path : string) : M W Event unit :=
  print L_blank_rule;;
  print L_runtime_title;;
  print L_rule;;
  try_except
    (session <- call (InferenceSession model_path)
                  (EvInferenceSession model_path);;
     print (L_total (length session));;
     for_each session print_input_meta)
    (fun e =>
       print (L_rt_failed e);;
       print L_rt_hint_missing;;
       print L_rt_hint_path).

(** Lines 23-140.  The handler of the first [try] returns from the
    function. *)
Definition analyze_onnx_model (model_path : string) : M W Event unit :=
  print (L_analyzing model_path);;
  print L_rule;;
  loaded <- try_except
              (model <- call (onnx_load model_path) (EvOnnxLoad model_path);;
               print L_load_ok;;
               ret (Some model))
              (fun e =>
                 print (L_load_failed e);;
                 ret None);;
  match loaded with
  | None => ret tt
  | Some model =>
      static_phase model;;
      runtime_phase model_path
  end.

(** ** main *)

Definition possible_paths : list string :=
  [ "E:\AutoTestDemo\TestWings\models\vl\decoder_model_merged_q4f16.onnx";
    "C:\Users\ch2oh\AppData\Local\Android\Sdk\platform-tools\models\vl\decoder_model_merged_q4f16.onnx";
    "models/vl/decoder_model_merged_q4f16.onnx";
    "../models/vl/decoder_model_merged_q4f16.onnx" ].

(** Lines 160-164: the first candidate that exists, if any. *)
Definition first_existing (paths : list string) : M W Event (option string) :=
  read (fun w => find (fun path => os_path_exists path w) paths).

(** Lines 142-179.  [sys.argv] is the name of the script and the
    arguments that follow it. *)
Definition main (argv0 : string) (args : list string) : M W Event unit :=
  model_path <-
    match args with
    | arg :: _ => ret arg
    | [] =>
        found <- first_existing possible_paths;;
        if negb (truthy_opt_str found) then
          print L_not_found;;
          print L_usage_header;;
          print (L_usage argv0);;
          print L_places_header;;
          for_each possible_paths (fun path => print (L_place path));;
          sys_exit 1
        else
          ret (match found with Some path => path | None => EmptyString end)
    end;;
  exists_ <- read (os_path_exists model_path);;
  if negb exists_ then
    print (L_missing model_path);;
    sys_exit 1
  else
    analyze_onnx_model model_path.

End Programs.

End CheckOnnxInputs.

(* ===================================================================== *)
(** * docs/tools/download_model.py *)
(* ===================================================================== *)

Module DownloadModel.
Import Py Prog Prog.Notations.

(** The libraries the script calls.  [hf_hub_download] is called with
    [repo_id], [filename] and [local_dir] (and with the constants
    [local_dir_use_symlinks=False], [resume_download=True]); it returns
    the path of the local file or raises.  [os.path.getsize] and
    [os.path.abspath] read the file system and can raise (OSError).
    [os.path.basename] is that of the platform: it splits on the slash
    and, on Windows, on the backslash too. *)
Class Hub (W : Type) : Type := {
  hf_hub_download : string -> string -> string -> W -> W * (string + string);
  os_path_getsize : string -> W -> string + Z;
  os_path_abspath : string -> W -> string + string;
  os_path_basename : string -> string
}.

(** The printed lines, one constructor for each [print] of the script.
    [D_file] carries the size in bytes, which the script shows divided by
    1024 * 1024 with two decimals. *)
Inductive Line : Type :=
| D_q4f16_banner
| D_int8_note
| D_start (repo_id : string)
| D_location (dir : string)
| D_count (n : nat)
| D_wait
| D_downloading (file_path : string)
| D_done (base : string)
| D_all_done
| D_files_at (dir : string)
| D_files_header
| D_file (base : string) (bytes : Z)
| D_failed (e : string)
| D_main_banner
| D_main_note.

Inductive Event : Type :=
| EvPrint (l : Line)
| EvDownload (repo_id filename local_dir : string) (r : string + string).

Definition repo_id : string := "onnx-community/Qwen2-VL-2B-Instruct".
Definition local_dir : string := ".".

Definition decoder_file : string := "onnx/decoder_model_merged_q4f16.onnx".
Definition vision_encoder_file : string := "onnx/vision_encoder_q4f16.onnx".
Definition embed_tokens_file : string := "onnx/embed_tokens_q4f16.onnx".

(** Lines 29-33 and 46-48: the list after the three [append]s. *)
Definition required_files : list string :=
  ((["config.json"; "preprocessor_config.json"; "tokenizer.json"]
      ++ [decoder_file]) ++ [vision_encoder_file]) ++ [embed_tokens_file].

(** The file names requested, in the order of the requests. *)
Definition requests (t : list Event) : list string :=
  flat_map (fun ev => match ev with
                      | EvDownload _ filename _ _ => [filename]
                      | EvPrint _ => []
                      end) t.

(** The outcomes of the requests, in their order. *)
Definition outcomes (t : list Event) : list (string + string) :=
  flat_map (fun ev => match ev with
                      | EvDownload _ _ _ r => [r]
                      | EvPrint _ => []
                      end) t.

Definition lines (t : list Event) : list Line :=
  flat_map (fun ev => match ev with
                      | EvPrint l => [l]
                      | EvDownload _ _ _ _ => []
                      end) t.

Definition is_report (l : Line) : bool :=
  match l with
  | D_all_done | D_files_header | D_file _ _ => true
  | _ => false
  end.

Definition succeeded (r : string + string) : bool :=
  match r with inl _ => false | inr _ => true end.

Section Programs.
Context {W : Type} `{Hub W}.

Definition print (l : Line) : M W Event unit := emit (EvPrint l).

(** Lines 58-68: the loop, with the list [downloaded_files] it fills. *)
Fixpoint download_each (files : list string) (downloaded_files : list string)
  : M W Event (list string) :=
  match files with
  | [] => ret downloaded_files
  | file_path :: rest =>
      print (D_downloading file_path);;
      local_file <- call (hf_hub_download repo_id file_path local_dir)
                      (EvDownload repo_id file_path local_dir);;
      let downloaded_files := downloaded_files ++ [local_file] in
      print (D_done (os_path_basename local_file));;
      download_each rest downloaded_files
  end.

(** Lines 73-75. *)
Definition report_file (f : string) : M W Event unit :=
  size <- attempt (os_path_getsize f);;
  print (D_file (os_path_basename f) size).

(** Lines 18-81: the statements of the function as they are written.  (In
    the file as given the docstring of lines 19-24 has lost its opening
    quotes, and the interpreter refuses the file as it stands.)  The reads
    of line 51 are outside the [try], those of lines 71 and 74 inside. *)
Definition download_model (use_q4f16 : bool) : M W Event bool :=
  when (use_q4f16 || true)
    (print D_q4f16_banner;;
     print D_int8_note);;
  print (D_start repo_id);;
  dir <- attempt (os_path_abspath local_dir);;
  print (D_location dir);;
  print (D_count (length required_files));;
  print D_wait;;
  try_except
    (downloaded_files <- download_each required_files [];;
     print D_all_done;;
     dir <- attempt (os_path_abspath local_dir);;
     print (D_files_at dir);;
     print D_files_header;;
     for_each downloaded_files report_file;;
     ret true)
    (fun e =>
       print (D_failed e);;
       ret false).

(** Lines 83-92: the script run with the command line [argv]. *)
Definition script_main (argv : list string) : M W Event unit :=
  let use_q4f16 := mem_str "--q4f16" argv || mem_str "-q" argv in
  print D_main_banner;;
  print D_main_note;;
  download_model use_q4f16;;
  ret tt.

End Programs.

End DownloadModel.

(* ===================================================================== *)
(** * tools/verify_official_format.py *)
(* ===================================================================== *)

Module VerifyOfficialFormat.
Import Py Prog Prog.Notations.

(** The tokenizer that [AutoTokenizer.from_pretrained] returns, on the
    one message list the script builds: the chat template rendering with
    and without the generation prompt, and the encoding without special
    tokens.  The template and the vocabulary are data of the remote
    repository.  The methods of a loaded tokenizer are taken as functions:
    a tokenizer whose methods raise is not described. *)
Record Tokenizer : Type := {
  apply_chat_template : bool -> string;       (* add_generation_prompt *)
  encode : string -> list Z;
  decode : list Z -> string;
  convert_tokens_to_ids : string -> Z
}.

Class Transformers (W : Type) : Type := {
  from_pretrained : string -> W -> W * (string + Tokenizer)
}.

(** [l.index(x) if x in l else 'Not found'] *)
Fixpoint index_of (x : Z) (l : list Z) : option nat :=
  match l with
  | [] => None
  | y :: t => if (y =? x)%Z then Some 0
              else option_map S (index_of x t)
  end.

(** The printed lines, one constructor for each [print] of the script;
    a line that shows a value carries it. *)
Inductive Line : Type :=
| V_loading                                   (* line 19 *)
| V_loaded                                    (* line 21 *)
| V_rule                                      (* lines 37, 39, 65, 89, 110 *)
| V_blank_rule                                (* lines 63, 87, 108 *)
| V_title (with_prompt : bool)                (* lines 38, 64 *)
| V_text_header                               (* lines 45, 71 *)
| V_text (text : string)                      (* lines 46, 72 *)
| V_blank                                     (* lines 47, 73 *)
| V_count (n : nat)                           (* lines 53, 78 *)
| V_first (ids : list Z)                      (* lines 54, 79 *)
| V_last (ids : list Z)                       (* lines 55, 80 *)
| V_first_decoded_header                      (* lines 58, 82 *)
| V_last_decoded_header                       (* lines 60, 84 *)
| V_decoded (text : string)                   (* lines 59, 61, 83, 85 *)
| V_ids_title                                 (* line 88 *)
| V_id (token : string) (id : Z)              (* lines 97-100 *)
| V_position (token : string) (pos : option nat)  (* lines 103-106 *)
| V_structure_title                           (* line 109 *)
| V_complete                                  (* line 116 *)
| V_findings                                  (* line 117 *)
| V_summary_no_prompt (n : nat)               (* line 118 *)
| V_summary_with_prompt (n : nat)             (* line 119 *)
| V_summary_delta (delta : Z)                 (* line 120 *)
| V_note.                                     (* line 121 *)

Inductive Event : Type :=
| EvPrint (l : Line)
| EvFromPretrained (model : string) (r : string + Tokenizer).

Section Programs.
Context {W : Type} `{Transformers W}.

Definition print (l : Line) : M W Event unit := emit (EvPrint l).

(** Lines 37-61 and 63-85, for one value of [add_generation_prompt]: the
    two blocks differ in the flag, in their title and in the blank line
    before the first rule of the second. *)
Definition show_variant (tokenizer : Tokenizer) (with_prompt : bool)
  : M W Event (list Z) :=
  print (if with_prompt then V_blank_rule else V_rule);;
  print (V_title with_prompt);;
  print V_rule;;
  let text_input := apply_chat_template tokenizer with_prompt in
  print V_text_header;;
  print (V_text text_input);;
  print V_blank;;
  let token_ids := encode tokenizer text_input in
  print (V_count (length token_ids));;
  print (V_first (slice_to 30 token_ids));;
  print (V_last (slice_last 30 token_ids));;
  print V_first_decoded_header;;
  print (V_decoded (decode tokenizer (slice_to 30 token_ids)));;
  print V_last_decoded_header;;
  print (V_decoded (decode tokenizer (slice_last 30 token_ids)));;
  ret token_ids.

(** The order of lines 97-100 and that of lines 103-106. *)
Definition sentinels : list string :=
  ["<|im_start|>"; "<|im_end|>"; "<|vision_start|>"; "<|vision_end|>"].

Definition position_order : list string :=
  ["<|im_start|>"; "<|vision_start|>"; "<|vision_end|>"; "<|im_end|>"].

(** Lines 17-121. *)
Definition main : M W Event unit :=
  print V_loading;;
  tokenizer <- call (from_pretrained "Qwen/Qwen2-VL-2B-Instruct")
                 (EvFromPretrained "Qwen/Qwen2-VL-2B-Instruct");;
  print V_loaded;;
  token_ids_no_prompt <- show_variant tokenizer false;;
  token_ids_with_prompt <- show_variant tokenizer true;;
  print V_blank_rule;;
  print V_ids_title;;
  print V_rule;;
  for_each sentinels
    (fun tok => print (V_id tok (convert_tokens_to_ids tokenizer tok)));;
  for_each position_order
    (fun tok => print (V_position tok
                         (index_of (convert_tokens_to_ids tokenizer tok)
                            token_ids_no_prompt)));;
  print V_blank_rule;;
  print V_structure_title;;
  print V_rule;;
  print V_complete;;
  print V_findings;;
  print (V_summary_no_prompt (length token_ids_no_prompt));;
  print (V_summary_with_prompt (length token_ids_with_prompt));;
  print (V_summary_delta (Z.of_nat (length token_ids_with_prompt)
                          - Z.of_nat (length token_ids_no_prompt)));;
  print V_note.

End Programs.

End VerifyOfficialFormat.

(* ===================================================================== *)
(** * tools/chat_onnx_reference.py *)
(* ===================================================================== *)

Module ChatOnnxReference.
Import Py Prog Prog.Notations.

(** A numpy array as far as the fragments use one: its shape, its element
    type and its elements in row-major order (a zero and a one are written
    as integers). *)
Record Array : Type := {
  arr_shape : list nat;
  arr_dtype : string;
  arr_data : list Z
}.

Definition size_of (shape : list nat) : nat := fold_right Nat.mul 1 shape.

(** [np.zeros(shape, dtype)] *)
Definition np_zeros (shape : list nat) (dtype : string) : Array :=
  {| arr_shape := shape;
     arr_dtype := dtype;
     arr_data := repeat 0%Z (size_of shape) |}.

(** [np.ones_like(a)] *)
Definition np_ones_like (a : Array) : Array :=
  {| arr_shape := arr_shape a;
     arr_dtype := arr_dtype a;
     arr_data := repeat 1%Z (size_of (arr_shape a)) |}.

(** The sizes of the model, globals of the script. *)
Record Sizes : Type := {
  n_layer : nat;
  n_kv_heads : nat;
  dim_head : nat
}.

(** A dict with string keys, in insertion order; [d[k] = v] replaces the
    value of a key that is present and adds the key at the end otherwise. *)
Definition Dict : Type := list (string * Array).

Fixpoint dict_set (k : string) (v : Array) (d : Dict) : Dict :=
  match d with
  | [] => [(k, v)]
  | (k', v') :: rest =>
      if String.eqb k k' then (k, v) :: rest
      else (k', v') :: dict_set k v rest
  end.

Fixpoint dict_get (k : string) (d : Dict) : option Array :=
  match d with
  | [] => None
  | (k', v') :: rest => if String.eqb k k' then Some v' else dict_get k rest
  end.

(** The session calls of [generate], with the dict they receive and what
    they return. *)
Inductive Event : Type :=
| EvSessionRun (inputs : Dict) (r : string + list Array)
| EvLogitsRun (inputs : Dict) (r : string + list Array).

(** The inference sessions and the slice [a[:, -1:, :]] of numpy, which
    raises on an array of fewer than three dimensions. *)
Class Sessions (W : Type) : Type := {
  session_run : Dict -> W -> W * (string + list Array);
  logits_session_run : Dict -> W -> W * (string + list Array);
  last_position : Array -> string + Array
}.

(** Lines 14-16 of [get_reply_with_implicit_history]: the cache before the
    first inference. *)
Definition get_reply_past_key_values (s : Sizes) : list Array :=
  fold_left
    (fun past_key_values (_ : nat) =>
       past_key_values
       ++ [np_zeros [1; n_kv_heads s; 0; dim_head s] "float16"])
    (seq 0 (2 * n_layer s)) [].

(** The keys of lines 28 and 29. *)
Definition past_key_in (i : nat) : string :=
  ("past_key_in" ++ str_int (Z.of_nat i))%string.

Definition past_value_in (i : nat) : string :=
  ("past_value_in" ++ str_int (Z.of_nat i))%string.

Section Programs.
Context {W : Type} `{Sessions W}.

(** [l[i]] for an index that is not negative. *)
Definition list_index {A} (l : list A) (i : nat) : M W Event A :=
  match nth_error l i with
  | Some x => ret x
  | None => raise (Exception "list index out of range")
  end.

(** Lines 25-29: the loop over the layers [layers]. *)
Fixpoint generate_layers (layers : list nat) (past_key_values : list Array)
    (inputs : Dict) : M W Event Dict :=
  match layers with
  | [] => ret inputs
  | i :: rest =>
      let key_index := 2 * i in
      let value_index := key_index + 1 in
      key <- list_index past_key_values key_index;;
      let inputs := dict_set (past_key_in i) key inputs in
      value <- list_index past_key_values value_index;;
      let inputs := dict_set (past_value_in i) value inputs in
      generate_layers rest past_key_values inputs
  end.

(** Lines 21-29: the dict [inputs]. *)
Definition generate_inputs (s : Sizes) (input_ids : Array)
    (past_key_values : list Array) : M W Event Dict :=
  let inputs :=
    dict_set "attention_mask" (np_ones_like input_ids)
      (dict_set "input_ids" input_ids []) in
  generate_layers (seq 0 (n_layer s)) past_key_values inputs.

(** Lines 20-34. *)
Definition generate (s : Sizes) (input_ids : Array)
    (past_key_values : list Array) : M W Event (list Array * list Array) :=
  inputs <- generate_inputs s input_ids past_key_values;;
  outputs <- call (session_run inputs) (EvSessionRun inputs);;
  first <- list_index outputs 0;;
  logits <- match last_position first with
            | inl e => raise (Exception e)
            | inr a => ret a
            end;;
  let logits_inputs :=
    dict_set "logits" logits (dict_set "all_input_ids" input_ids []) in
  result <- call (logits_session_run logits_inputs) (EvLogitsRun logits_inputs);;
  ret (result, tl outputs).

End Programs.

End ChatOnnxReference.

(* ===================================================================== *)
(** * Sample worlds *)
(* ===================================================================== *)

Module Samples.
Import Py Prog.

(** A world without state in which every load gives [load], every
    session gives [session] and exactly the paths of [present] exist. *)
Definition onnx_world (load : string + CheckOnnxInputs.ModelProto)
    (session : string + list CheckOnnxInputs.NodeArg)
    (present : list string) : CheckOnnxInputs.Libs unit :=
  {| CheckOnnxInputs.onnx_load := fun _ w => (w, load);
     CheckOnnxInputs.InferenceSession := fun _ w => (w, session);
     CheckOnnxInputs.os_path_exists := fun path _ => mem_str path present |}.

Definition tensor (nm : string) (dims : list (Z * string))
  : CheckOnnxInputs.ValueInfo :=
  {| CheckOnnxInputs.name := nm;
     CheckOnnxInputs.shape_dim :=
       map (fun d => {| CheckOnnxInputs.dim_value := fst d;
                        CheckOnnxInputs.dim_param := snd d |}) dims;
     CheckOnnxInputs.elem_type := 10 |}.

(** A cache input whose name also holds the attention mask fragment. *)
Definition mixed_name_input : CheckOnnxInputs.ValueInfo :=
  tensor "past_key_values.0.attention_mask"
    [(1%Z, EmptyString); (0%Z, "past_sequence_length")].

Definition cache_input (nm : string) : CheckOnnxInputs.ValueInfo :=
  tensor nm [(0%Z, "batch_size"); (2%Z, EmptyString);
             (0%Z, "past_sequence_length"); (128%Z, EmptyString)].

(** A decoder with four layers: eight cache inputs. *)
Definition decoder_inputs : list CheckOnnxInputs.ValueInfo :=
  [ tensor "inputs_embeds" [(0%Z, "batch_size"); (0%Z, "sequence_length");
                            (1536%Z, EmptyString)];
    tensor "attention_mask" [(0%Z, "batch_size"); (0%Z, EmptyString)];
    tensor "position_ids" [(3%Z, EmptyString); (0%Z, "batch_size");
                           (0%Z, "sequence_length")];
    cache_input "past_key_values.0.key";
    cache_input "past_key_values.0.value";
    cache_input "past_key_values.1.key";
    cache_input "past_key_values.1.value";
    cache_input "past_key_values.2.key";
    cache_input "past_key_values.2.value";
    cache_input "past_key_values.3.key";
    cache_input "past_key_values.3.value" ].

(** A decoder with one layer: two cache inputs. *)
Definition small_inputs : list CheckOnnxInputs.ValueInfo :=
  [ tensor "inputs_embeds" [(0%Z, "batch_size")];
    cache_input "past_key_values.0.key";
    cache_input "past_key_values.0.value" ].

Definition decoder_model : CheckOnnxInputs.ModelProto :=
  {| CheckOnnxInputs.graph_input := decoder_inputs |}.

Definition runtime_inputs : list CheckOnnxInputs.NodeArg :=
  [ {| CheckOnnxInputs.arg_name := "inputs_embeds";
       CheckOnnxInputs.arg_shape :=
         [CheckOnnxInputs.PStr "batch_size"; CheckOnnxInputs.PInt 1536;
          CheckOnnxInputs.PInt (-1); CheckOnnxInputs.PNone];
       CheckOnnxInputs.arg_type := "tensor(float)" |} ].

(** The graph file is damaged: the load raises, a session would open. *)
Definition damaged_file_world : CheckOnnxInputs.Libs unit :=
  onnx_world (inl "Protobuf parsing failed.") (inr runtime_inputs)
    ["model.onnx"].

(** The graph loads and the runtime cannot open a session. *)
Definition no_backend_world : CheckOnnxInputs.Libs unit :=
  onnx_world (inr decoder_model) (inl "No execution provider.")
    ["model.onnx"].

(** No file exists. *)
Definition empty_disk_world : CheckOnnxInputs.Libs unit :=
  onnx_world (inr decoder_model) (inr runtime_inputs) [].

(** A hub that counts its calls and fails on the file [broken]; every
    size can be read. *)
Definition hub_world (broken : string) : DownloadModel.Hub nat :=
  {| DownloadModel.hf_hub_download :=
       fun _ filename dir n =>
         (S n, if String.eqb filename broken then inl "connection reset"
               else inr (dir ++ "/" ++ filename)%string);
     DownloadModel.os_path_getsize :=
       fun f _ => inr (Z.of_nat (String.length f));
     DownloadModel.os_path_abspath :=
       fun dir _ => inr ("/home/user/" ++ dir)%string;
     DownloadModel.os_path_basename := basename |}.

(** A hub whose retrievals all return, on a disk where the size of the
    file [unreadable] cannot be read. *)
Definition unreadable_world (unreadable : string) : DownloadModel.Hub nat :=
  {| DownloadModel.hf_hub_download :=
       fun _ filename dir n => (S n, inr (dir ++ "/" ++ filename)%string);
     DownloadModel.os_path_getsize :=
       fun f _ => if String.eqb f unreadable
                  then inl "[Errno 2] No such file or directory"
                  else inr (Z.of_nat (String.length f));
     DownloadModel.os_path_abspath :=
       fun dir _ => inr ("/home/user/" ++ dir)%string;
     DownloadModel.os_path_basename := basename |}.

(** A [str.lower()] for the samples whose names are ASCII: it lower-cases
    the ASCII letters and leaves every other byte.  On ASCII names every
    [str.lower()] agrees with it. *)
Definition ascii_str : Str.
Proof.
  refine {| str_lower := lower |}.
  - reflexivity.
  - intros p rest _. exists (lower rest).
    induction p as [|c p IH]; simpl; [reflexivity | now rewrite IH].
  - intros s. induction s as [|c s IH]; simpl; [reflexivity|].
    rewrite IH. f_equal.
    destruct c as [b0 b1 b2 b3 b4 b5 b6 b7].
    destruct b0, b1, b2, b3, b4, b5, b6, b7; reflexivity.
Defined.

(** The Kelvin sign U+212A in UTF-8: the bytes E2 84 AA. *)
Definition kelvin_sign : string :=
  String (ascii_of_nat 226) (String (ascii_of_nat 132)
    (String (ascii_of_nat 170) EmptyString)).

Definition is_kelvin (a b c : ascii) : bool :=
  (nat_of_ascii a =? 226)%nat && (nat_of_ascii b =? 132)%nat
  && (nat_of_ascii c =? 170)%nat.

(** A [str.lower()] that, beyond the ASCII letters, knows the Kelvin sign
    and sends it to k, as the interpreter does. *)
Fixpoint kelvin_lower (s : string) : string :=
  match s with
  | EmptyString => EmptyString
  | String a t =>
      match t with
      | String b (String c u) =>
          if is_kelvin a b c then String "k" (kelvin_lower u)
          else String (lower_ascii a) (kelvin_lower t)
      | _ => String (lower_ascii a) (kelvin_lower t)
      end
  end.

Definition kelvin_str : Str.
Proof.
  assert (Hstep : forall a t,
             (nat_of_ascii a <? 128)%nat = true ->
             kelvin_lower (String a t)
             = String (lower_ascii a) (kelvin_lower t)).
  { intros a t Ha. cbn [kelvin_lower].
    destruct t as [|b [|c u]]; try reflexivity.
    unfold is_kelvin. apply Nat.ltb_lt in Ha.
    destruct (Nat.eqb_spec (nat_of_ascii a) 226); [lia|]. reflexivity. }
  assert (Hbyte : forall a,
             nat_of_ascii (lower_ascii a) = nat_of_ascii a
             \/ (nat_of_ascii a < 128
                 /\ nat_of_ascii (lower_ascii a) < 128)).
  { intros a. destruct a as [b0 b1 b2 b3 b4 b5 b6 b7].
    destruct b0, b1, b2, b3, b4, b5, b6, b7; cbv;
      first [left; reflexivity | right; lia]. }
  assert (Hidem : forall a, lower_ascii (lower_ascii a) = lower_ascii a).
  { intros a. destruct a as [b0 b1 b2 b3 b4 b5 b6 b7].
    destruct b0, b1, b2, b3, b4, b5, b6, b7; reflexivity. }
  assert (Hkel : forall a b c,
             is_kelvin (lower_ascii a) (lower_ascii b) (lower_ascii c)
             = is_kelvin a b c).
  { intros a b c. unfold is_kelvin.
    assert (Hone : forall x n,
               128 <= n ->
               (nat_of_ascii (lower_ascii x) =? n)%nat
               = (nat_of_ascii x =? n)%nat).
    { intros x n Hn. destruct (Hbyte x) as [-> | [H1 H2]]; [reflexivity|].
      destruct (Nat.eqb_spec (nat_of_ascii (lower_ascii x)) n);
        destruct (Nat.eqb_spec (nat_of_ascii x) n); try lia; reflexivity. }
    rewrite !Hone by lia. reflexivity. }
  assert (Hunfold : forall a b c u,
             kelvin_lower (String a (String b (String c u)))
             = if is_kelvin a b c then String "k" (kelvin_lower u)
               else String (lower_ascii a)
                      (kelvin_lower (String b (String c u)))).
  { reflexivity. }
  refine {| str_lower := kelvin_lower |}.
  - intros s. induction s as [|a s IH]; intros Hs; [reflexivity|].
    cbn [is_ascii] in Hs. apply andb_prop in Hs. destruct Hs as [Ha Hs].
    rewrite Hstep by exact Ha. cbn [lower]. now rewrite IH.
  - intros p rest. induction p as [|a p IH]; intros Hp.
    + exists (kelvin_lower rest). reflexivity.
    + cbn [is_ascii] in Hp. apply andb_prop in Hp. destruct Hp as [Ha Hp].
      destruct (IH Hp) as [t Ht]. exists t.
      change (String a p ++ rest)%string with (String a (p ++ rest)).
      rewrite Hstep by exact Ha. now rewrite Ht.
  - assert (Hlen : forall n s,
               String.length s <= n ->
               kelvin_lower (lower s) = kelvin_lower s).
    { induction n as [|n IH]; intros s Hs.
      - destruct s; [reflexivity | simpl in Hs; lia].
      - destruct s as [|a [|b [|c u]]]; try reflexivity.
        + cbn. now rewrite Hidem.
        + cbn. now rewrite !Hidem.
        + change (lower (String a (String b (String c u))))
            with (String (lower_ascii a)
                    (String (lower_ascii b)
                       (String (lower_ascii c) (lower u)))).
          rewrite !Hunfold, Hkel.
          destruct (is_kelvin a b c).
          * f_equal. apply IH. simpl in Hs. lia.
          * rewrite Hidem. f_equal.
            change (String (lower_ascii b)
                      (String (lower_ascii c) (lower u)))
              with (lower (String b (String c u))).
            apply IH. simpl in Hs |- *. lia. }
    intros s. now apply (Hlen (String.length s)).
Defined.

(** Two names with a Kelvin sign for a k. *)
Definition kelvin_mask_input : CheckOnnxInputs.ValueInfo :=
  tensor ("past_key_values.0.attention_mas" ++ kelvin_sign)
    [(1%Z, EmptyString); (0%Z, "past_sequence_length")].

Definition kelvin_cache_input : CheckOnnxInputs.ValueInfo :=
  cache_input ("past_" ++ kelvin_sign ++ "ey_values.0.key").

End Samples.

Module MoreSamples.
Import Py Prog.

(** Only the two relative candidate paths exist. *)
Definition relative_paths_world : CheckOnnxInputs.Libs unit :=
  Samples.onnx_world (inr Samples.decoder_model) (inr Samples.runtime_inputs)
    ["models/vl/decoder_model_merged_q4f16.onnx";
     "../models/vl/decoder_model_merged_q4f16.onnx"].

End MoreSamples.

Module VerifierSamples.
Import Py Prog.

(** A tokenizer with one token for each byte, and a short template. *)
Definition byte_tokenizer : VerifyOfficialFormat.Tokenizer :=
  {| VerifyOfficialFormat.apply_chat_template :=
       fun add_generation_prompt =>
         if add_generation_prompt then "<s>user: hi</s><s>assistant:"
         else "<s>user: hi</s>";
     VerifyOfficialFormat.encode :=
       fun text => map (fun c => Z.of_nat (nat_of_ascii c))
                     (list_ascii_of_string text);
     VerifyOfficialFormat.decode :=
       fun ids => string_of_list_ascii
                    (map (fun z => ascii_of_nat (Z.to_nat z)) ids);
     VerifyOfficialFormat.convert_tokens_to_ids :=
       fun token => match token with
                    | EmptyString => 0%Z
                    | String c _ => Z.of_nat (nat_of_ascii c)
                    end |}.

(** The tokenizer can be loaded. *)
Definition online_world : VerifyOfficialFormat.Transformers unit :=
  {| VerifyOfficialFormat.from_pretrained :=
       fun _ w => (w, inr byte_tokenizer) |}.

(** The tokenizer cannot be loaded. *)
Definition offline_world : VerifyOfficialFormat.Transformers unit :=
  {| VerifyOfficialFormat.from_pretrained :=
       fun _ w => (w, inl "Connection error.") |}.

End VerifierSamples.

Module ReferenceSamples.
Import Py Prog ChatOnnxReference.

(** A model of two layers. *)
Definition two_layers : Sizes :=
  {| n_layer := 2; n_kv_heads := 2; dim_head := 128 |}.

Definition prompt_ids : Array :=
  {| arr_shape := [1; 3]; arr_dtype := "int64"; arr_data := [101; 7; 9]%Z |}.

Definition step_logits : Array :=
  {| arr_shape := [1; 3; 2]; arr_dtype := "float16";
     arr_data := [0; 1; 0; 1; 1; 0]%Z |}.

Definition cache_array (n : Z) : Array :=
  {| arr_shape := [1; 2; 1; 1]; arr_dtype := "float16"; arr_data := [n; n]%Z |}.

(** The session returns the logits and four cache arrays, whatever it is
    given; the slice keeps the last position of an array of three
    dimensions. *)
Definition sessions_world : Sessions unit :=
  {| session_run :=
       fun _ w => (w, inr [step_logits; cache_array 1; cache_array 2;
                           cache_array 3; cache_array 4]);
     logits_session_run :=
       fun _ w => (w, inr [{| arr_shape := [1; 1]; arr_dtype := "int64";
                              arr_data := [0%Z] |}]);
     last_position :=
       fun a => match arr_shape a with
                | [b; s; v] =>
                    inr {| arr_shape := [b; Nat.min 1 s; v];
                           arr_dtype := arr_dtype a;
                           arr_data := skipn ((s - 1) * v) (arr_data a) |}
                | _ => inl "too many indices for array"
                end |}.

(** The session raises. *)
Definition broken_session_world : Sessions unit :=
  {| session_run := fun _ w => (w, inl "Invalid input name");
     logits_session_run := fun _ w => (w, inr []);
     last_position := fun a => inr a |}.

Definition full_cache : list Array :=
  [cache_array 1; cache_array 2; cache_array 3; cache_array 4].

End ReferenceSamples.

(* ===================================================================== *)
(** * Facts about the Python built-ins *)
(* ===================================================================== *)

Module PyFacts.
Import Py.

Lemma prefix_app (p s : string) :
  String.prefix p s = true <-> exists rest, s = (p ++ rest)%string.
Proof.
  revert s. induction p as [|c p IH]; intros s.
  - split; [intros _; exists s; reflexivity | intros _; now destruct s].
  - destruct s as [|d s]; simpl.
    + split; [discriminate | intros [rest Hr]; discriminate].
    + destruct (Ascii.ascii_dec c d) as [->|Hne].
      * rewrite IH. split; intros [rest Hr]; exists rest.
        -- now rewrite Hr.
        -- now inversion Hr.
      * split; [discriminate | intros [rest Hr]; congruence].
Qed.

(** [sub in s] holds exactly when [s] is some text, then [sub], then some
    text. *)
Lemma contains_iff (sub s : string) :
  contains sub s = true <->
  exists before after, s = (before ++ sub ++ after)%string.
Proof.
  induction s as [|c s IH]; cbn [contains].
  - rewrite orb_false_r, prefix_app. split.
    + intros [rest Hr]. exists EmptyString, rest. exact Hr.
    + intros [[|b before] [after Ha]]; [exists after; exact Ha | discriminate].
  - rewrite orb_true_iff, prefix_app, IH. split.
    + intros [[rest Hr] | [before [after Ha]]].
      * exists EmptyString, rest. exact Hr.
      * exists (String c before), after. simpl. now rewrite Ha.
    + intros [[|b before] [after Ha]].
      * left. exists after. exact Ha.
      * right. simpl in Ha. inversion Ha. now exists before, after.
Qed.

Lemma enumerate_from_In {A} (l : list A) (k i : nat) (x : A) :
  In (i, x) (enumerate_from k l) <-> k <= i /\ nth_error l (i - k) = Some x.
Proof.
  revert k. induction l as [|y l IH]; intros k; simpl.
  - split; [contradiction | intros [_ Hn]; destruct (i - k); discriminate].
  - rewrite IH. split.
    + intros [Heq | [Hle Hn]].
      * inversion Heq; subst. rewrite Nat.sub_diag. split; [lia | reflexivity].
      * split; [lia|]. replace (i - k) with (S (i - S k)) by lia. exact Hn.
    + intros [Hle Hn]. destruct (Nat.eq_dec i k) as [->|Hne].
      * rewrite Nat.sub_diag in Hn. simpl in Hn. inversion Hn. now left.
      * right. split; [lia|].
        replace (i - k) with (S (i - S k)) in Hn by lia. exact Hn.
Qed.

Lemma enumerate_from_sorted {A} (f : nat * A -> bool) (l : list A) (k : nat) :
  StronglySorted lt (map fst (filter f (enumerate_from k l)))
  /\ Forall (fun i => k <= i) (map fst (filter f (enumerate_from k l))).
Proof.
  revert k. induction l as [|y l IH]; intros k; simpl.
  - split; constructor.
  - destruct (IH (S k)) as [Hs Hf].
    assert (Hk : Forall (fun i => k <= i)
                   (map fst (filter f (enumerate_from (S k) l)))).
    { eapply Forall_impl; [|exact Hf]. simpl. intros; lia. }
    destruct (f (k, y)); simpl.
    + split.
      * constructor; [exact Hs|].
        eapply Forall_impl; [|exact Hf]. simpl. intros; lia.
      * constructor; [lia | exact Hk].
    + split; assumption.
Qed.

End PyFacts.

(* ===================================================================== *)
(** * Facts about programs *)
(* ===================================================================== *)

Module ProgFacts.
Import Py Prog.

(** A loop that only prints, prints one line for each element. *)
Lemma for_each_emit {W E A} (f : A -> E) (l : list A) (w : W) :
  for_each l (fun x => emit (f x)) w = (w, map f l, inr tt).
Proof.
  induction l as [|x l IH]; simpl.
  - reflexivity.
  - unfold bind, emit at 1. rewrite IH. reflexivity.
Qed.

End ProgFacts.

(* ===================================================================== *)
(** * tools/check_onnx_inputs.py: the classification *)
(* ===================================================================== *)

Module CheckOnnxInputsSpec.
Import Py Prog Prog.Notations CheckOnnxInputs.

Section Classification.
Context {S : Str}.

Lemma bucket_append_to (c d : Category) (info : InputInfo) (b : Buckets) :
  bucket c (append_to d info b) =
  bucket c b ++ (if Category_eqb d c then [info] else []).
Proof.
  destruct c, d; simpl; rewrite ?app_nil_r; reflexivity.
Qed.

Lemma bucket_fold (c : Category) (inputs : list ValueInfo) (b : Buckets) :
  bucket c (fold_left classify_step inputs b) =
  bucket c b
  ++ map input_info_of
       (filter (fun t => Category_eqb (category_of (name t)) c) inputs).
Proof.
  revert b. induction inputs as [|t inputs IH]; intros b; simpl.
  - now rewrite app_nil_r.
  - rewrite IH. unfold classify_step. rewrite bucket_append_to.
    destruct (Category_eqb (category_of (name t)) c); simpl.
    + now rewrite <- app_assoc.
    + now rewrite app_nil_r.
Qed.

(** A category list holds, in the order of the graph, the inputs whose
    name the chain of conditions sends to that category. *)
Lemma bucket_classify (c : Category) (inputs : list ValueInfo) :
  bucket c (classify inputs) =
  map input_info_of
    (filter (fun t => Category_eqb (category_of (name t)) c) inputs).
Proof.
  unfold classify. rewrite bucket_fold. destruct c; reflexivity.
Qed.

Lemma Category_eqb_eq (c d : Category) : Category_eqb c d = true <-> c = d.
Proof. destruct c, d; simpl; split; congruence. Qed.

Lemma In_bucket (c : Category) (inputs : list ValueInfo) (info : InputInfo) :
  In info (bucket c (classify inputs)) <->
  exists t, In t inputs /\ category_of (name t) = c /\ input_info_of t = info.
Proof.
  rewrite bucket_classify, in_map_iff. split.
  - intros [t [Hi Hf]]. apply filter_In in Hf. destruct Hf as [Hin Hc].
    apply Category_eqb_eq in Hc. now exists t.
  - intros [t [Hin [Hc Hi]]]. exists t. split; [exact Hi|].
    apply filter_In. split; [exact Hin | now apply Category_eqb_eq].
Qed.

(** The fourth condition of the chain is reached only by a name that holds
    none of the first three fragments. *)
Lemma category_of_cache (nm : string) :
  contains "past_key_values" (str_lower nm) = true ->
  contains "inputs_embeds" (str_lower nm) = false ->
  contains "attention_mask" (str_lower nm) = false ->
  contains "position_ids" (str_lower nm) = false ->
  category_of nm = PastKeyValues.
Proof.
  intros Hp He Ha Hi. unfold category_of. rewrite He, Ha, Hi, Hp. simpl.
  destruct (String.eqb_spec nm "inputs_embeds") as [->|_];
    [rewrite str_lower_ascii in He by reflexivity;
     vm_compute in He; discriminate|].
  destruct (String.eqb_spec nm "attention_mask") as [->|_];
    [rewrite str_lower_ascii in Ha by reflexivity;
     vm_compute in Ha; discriminate|].
  destruct (String.eqb_spec nm "position_ids") as [->|_];
    [rewrite str_lower_ascii in Hi by reflexivity;
     vm_compute in Hi; discriminate|].
  reflexivity.
Qed.

(** C1, amended: an input whose name holds past_key_values in any letter
    case, and none of inputs_embeds, attention_mask and position_ids in
    any letter case, is put in the cache list and in no other list.  A name
    holds a fragment in any letter case when [name.lower()] holds it, for the
    [str.lower()] of the interpreter. *)
Theorem past_key_values_classified
    (inputs : list ValueInfo) (t : ValueInfo) :
  In t inputs ->
  contains "past_key_values" (str_lower (name t)) = true ->
  contains "inputs_embeds" (str_lower (name t)) = false ->
  contains "attention_mask" (str_lower (name t)) = false ->
  contains "position_ids" (str_lower (name t)) = false ->
  In (input_info_of t) (past_key_values_inputs (classify inputs))
  /\ forall c, c <> PastKeyValues ->
               ~ In (input_info_of t) (bucket c (classify inputs)).
Proof.
  intros Hin Hp He Ha Hi.
  pose proof (category_of_cache _ Hp He Ha Hi) as Hc. split.
  - change (In (input_info_of t) (bucket PastKeyValues (classify inputs))).
    apply In_bucket. now exists t.
  - intros c Hne Hb. apply In_bucket in Hb.
    destruct Hb as [u [_ [Hcu Hiu]]]. apply Hne.
    apply (f_equal info_name) in Hiu. simpl in Hiu.
    rewrite <- Hcu, Hiu. exact Hc.
Qed.

Lemma display_dim_spec (d : Dimension) : displayed_as d (display_dim d).
Proof.
  unfold display_dim. destruct (Z.gtb_spec (dim_value d) 0) as [Hgt | Hle].
  - apply shown_value. lia.
  - destruct (dim_param d) eqn:Hp; simpl.
    + apply shown_unknown; assumption.
    + rewrite <- Hp. apply shown_param; [assumption | congruence].
Qed.

Lemma displayed_as_fun (d : Dimension) (v : ShapeElem) :
  displayed_as d v -> v = display_dim d.
Proof.
  intros Hd. unfold display_dim. inversion Hd; subst.
  - destruct (Z.gtb_spec (dim_value d) 0); [reflexivity | lia].
  - destruct (Z.gtb_spec (dim_value d) 0); [lia|].
    destruct (dim_param d); [congruence | reflexivity].
  - destruct (Z.gtb_spec (dim_value d) 0); [lia|].
    destruct (dim_param d); [reflexivity | discriminate].
Qed.

(** C6: every dimension of every declared input is displayed as the
    integer dim_value when it is positive, otherwise as the name
    dim_param when that is not empty, otherwise as -1; this is the shape
    recorded for the input in the list of its category. *)
Theorem display_shape_correct :
  (forall d v, displayed_as d v <-> v = display_dim d)
  /\ (forall inputs : list ValueInfo,
        Forall (fun t =>
                  exists info,
                    In info (bucket (category_of (name t)) (classify inputs))
                    /\ info_name info = name t
                    /\ Forall2 displayed_as (shape_dim t) (info_shape info))
               inputs)
  /\ (forall (inputs : list ValueInfo) (c : Category),
        Forall (fun info =>
                  exists t,
                    In t inputs /\ info_name info = name t
                    /\ Forall2 displayed_as (shape_dim t) (info_shape info))
               (bucket c (classify inputs))).
Proof.
  assert (Hshape : forall t, Forall2 displayed_as (shape_dim t)
                               (info_shape (input_info_of t))).
  { intros t. simpl. induction (shape_dim t) as [|d l IH]; simpl.
    - constructor.
    - constructor; [apply display_dim_spec | exact IH]. }
  split; [|split].
  - intros d v. split.
    + apply displayed_as_fun.
    + intros ->. apply display_dim_spec.
  - intros inputs. apply Forall_forall. intros t Hin.
    exists (input_info_of t). split; [|split].
    + apply In_bucket. now exists t.
    + reflexivity.
    + apply Hshape.
  - intros inputs c. apply Forall_forall. intros info Hin.
    apply In_bucket in Hin. destruct Hin as [t [Hin [_ <-]]].
    exists t. split; [exact Hin|]. split; [reflexivity | apply Hshape].
Qed.

Lemma is_dynamic_iff (d : PyDim) :
  is_dynamic d = true <->
  (exists s, d = PStr s) \/ (exists z, d = PInt z /\ (z < 0)%Z).
Proof.
  destruct d as [z | s |]; unfold is_dynamic; cbn [orb].
  - rewrite Z.ltb_lt. split.
    + intros Hz. right. now exists z.
    + intros [[s Hs] | [z' [Hz Hlt]]]; [discriminate | now inversion Hz].
  - split; [intros _; left; now exists s | reflexivity].
  - split; [discriminate | intros [[s Hs] | [z [Hz _]]]; discriminate].
Qed.

Lemma print_input_meta_run {W} (input_meta : NodeArg) (w : W) :
  print_input_meta input_meta w
  = (w, map EvPrint (input_meta_lines input_meta), inr tt).
Proof.
  unfold print_input_meta, input_meta_lines.
  destruct (dynamic_dims_of (arg_shape input_meta)); reflexivity.
Qed.

(** Line 132: the indices kept are those of the dimensions that are a
    string or a negative integer. *)
Lemma dynamic_dims_In (shape : list PyDim) (i : nat) :
  In i (dynamic_dims_of shape) <->
  exists d, nth_error shape i = Some d
            /\ ((exists s, d = PStr s)
                \/ (exists z, d = PInt z /\ (z < 0)%Z)).
Proof.
  unfold dynamic_dims_of, enumerate. rewrite in_map_iff. split.
  - intros [[j d] [Hj Hin]]. simpl in Hj. subst j.
    apply filter_In in Hin. destruct Hin as [Hin Hd]. simpl in Hd.
    apply PyFacts.enumerate_from_In in Hin. destruct Hin as [_ Hn].
    rewrite Nat.sub_0_r in Hn. exists d. split; [exact Hn|].
    now apply is_dynamic_iff.
  - intros [d [Hn Hd]]. exists (i, d). split; [reflexivity|].
    apply filter_In. split.
    + apply PyFacts.enumerate_from_In. rewrite Nat.sub_0_r.
      split; [lia | exact Hn].
    + now apply is_dynamic_iff.
Qed.

Lemma dynamic_dims_sorted (shape : list PyDim) :
  StronglySorted lt (dynamic_dims_of shape).
Proof.
  unfold dynamic_dims_of, enumerate.
  apply (PyFacts.enumerate_from_sorted (fun p => is_dynamic (snd p)) shape 0).
Qed.

End Classification.

(** C1, as the claim states it, fails: the input named
    past_key_values.0.attention_mask holds the fragment past_key_values,
    and the classification puts it in the attention mask list and not in
    the cache list.  The name is ASCII, so that every [str.lower()] lowers
    it alike and the chain of lines 64-73 sends it to the attention mask
    category. *)
Lemma past_key_values_not_exclusive :
  let t := Samples.mixed_name_input in
  let b := @classify Samples.ascii_str [t] in
  In t [t]
  /\ is_ascii (name t) = true
  /\ contains "past_key_values" (@str_lower Samples.ascii_str (name t)) = true
  /\ ~ In (input_info_of t) (past_key_values_inputs b)
  /\ In (input_info_of t) (attention_mask_inputs b)
  /\ (forall S : Str,
         contains "past_key_values" (str_lower (name t)) = true
         /\ category_of (name t) = AttentionMask).
Proof.
  cbv zeta. split; [now left|]. split; [reflexivity|].
  split; [vm_compute; reflexivity|]. split; [|split].
  - change (past_key_values_inputs (@classify Samples.ascii_str
                                      [Samples.mixed_name_input]))
      with (bucket PastKeyValues (@classify Samples.ascii_str
                                    [Samples.mixed_name_input])).
    rewrite bucket_classify. vm_compute. intros [].
  - change (attention_mask_inputs (@classify Samples.ascii_str
                                     [Samples.mixed_name_input]))
      with (bucket AttentionMask (@classify Samples.ascii_str
                                    [Samples.mixed_name_input])).
    rewrite bucket_classify. vm_compute. now left.
  - intros S. unfold category_of.
    rewrite (str_lower_ascii (name Samples.mixed_name_input)) by reflexivity.
    split; vm_compute; reflexivity.
Qed.

Lemma past_key_values_classified_witness :
  (let t := Samples.cache_input "past_key_values.3.value" in
   In (input_info_of t)
      (past_key_values_inputs (@classify Samples.ascii_str
                                 Samples.decoder_inputs))
   /\ forall c, c <> PastKeyValues ->
                ~ In (input_info_of t)
                    (bucket c (@classify Samples.ascii_str
                                 Samples.decoder_inputs)))
  /\ (let t := Samples.kelvin_cache_input in
      In (input_info_of t)
         (past_key_values_inputs (@classify Samples.kelvin_str [t]))
      /\ forall c, c <> PastKeyValues ->
                   ~ In (input_info_of t)
                       (bucket c (@classify Samples.kelvin_str [t]))).
Proof.
  split.
  - apply (@past_key_values_classified Samples.ascii_str
             Samples.decoder_inputs
             (Samples.cache_input "past_key_values.3.value")).
    + simpl. do 10 right. left. reflexivity.
    + vm_compute. reflexivity.
    + vm_compute. reflexivity.
    + vm_compute. reflexivity.
    + vm_compute. reflexivity.
  - apply (@past_key_values_classified Samples.kelvin_str
             [Samples.kelvin_cache_input] Samples.kelvin_cache_input).
    + now left.
    + vm_compute. reflexivity.
    + vm_compute. reflexivity.
    + vm_compute. reflexivity.
    + vm_compute. reflexivity.
Defined.

(** With a [str.lower()] that knows the Kelvin sign, the chain follows the
    lower-case form of the name and not its ASCII letters: a name that ends
    in attention_mas and the sign is an attention mask, and a name that
    starts with past_, the sign and ey_values is a cache input. *)
Lemma kelvin_sign_names :
  contains "attention_mask" (lower (name Samples.kelvin_mask_input)) = false
  /\ @category_of Samples.kelvin_str (name Samples.kelvin_mask_input)
     = AttentionMask
  /\ contains "past_key_values" (lower (name Samples.kelvin_cache_input))
     = false
  /\ @category_of Samples.kelvin_str (name Samples.kelvin_cache_input)
     = PastKeyValues.
Proof. repeat split; vm_compute; reflexivity. Qed.

End CheckOnnxInputsSpec.

(* ===================================================================== *)
(** * tools/check_onnx_inputs.py: the listing, the two phases and main *)
(* ===================================================================== *)

Module CheckOnnxInputsRun.
Import Py Prog Prog.Notations CheckOnnxInputs.

Lemma lines_map_Print (ls : list Line) : lines (map EvPrint ls) = ls.
Proof. induction ls as [|l ls IH]; simpl; [|rewrite IH]; reflexivity. Qed.

Lemma load_calls_map_Print (ls : list Line) : load_calls (map EvPrint ls) = [].
Proof. induction ls as [|l ls IH]; simpl; [|rewrite IH]; reflexivity. Qed.

Lemma session_calls_map_Print (ls : list Line) :
  session_calls (map EvPrint ls) = [].
Proof. induction ls as [|l ls IH]; simpl; [|rewrite IH]; reflexivity. Qed.

Lemma lines_app (t u : list Event) : lines (t ++ u) = lines t ++ lines u.
Proof. apply flat_map_app. Qed.

Lemma load_calls_app (t u : list Event) :
  load_calls (t ++ u) = load_calls t ++ load_calls u.
Proof. apply flat_map_app. Qed.

Lemma session_calls_app (t u : list Event) :
  session_calls (t ++ u) = session_calls t ++ session_calls u.
Proof. apply flat_map_app. Qed.

Lemma lines_cons (ev : Event) (t : list Event) :
  lines (ev :: t) = lines [ev] ++ lines t.
Proof. apply (lines_app [ev] t). Qed.

Lemma load_calls_cons (ev : Event) (t : list Event) :
  load_calls (ev :: t) = load_calls [ev] ++ load_calls t.
Proof. apply (load_calls_app [ev] t). Qed.

Lemma session_calls_cons (ev : Event) (t : list Event) :
  session_calls (ev :: t) = session_calls [ev] ++ session_calls t.
Proof. apply (session_calls_app [ev] t). Qed.

(** Projections of a trace built from printed blocks and single calls. *)
Ltac project_trace :=
  unfold trace, outcome, final; cbn [fst snd];
  repeat first
    [ rewrite lines_app | rewrite load_calls_app | rewrite session_calls_app
    | rewrite lines_map_Print | rewrite load_calls_map_Print
    | rewrite session_calls_map_Print
    | rewrite (lines_cons _ (map EvPrint _))
    | rewrite (load_calls_cons _ (map EvPrint _))
    | rewrite (session_calls_cons _ (map EvPrint _)) ];
  cbn [lines load_calls session_calls flat_map app].

Lemma slice_last_app {A} (l1 l2 : list A) :
  slice_last (length l2) (l1 ++ l2) = l2.
Proof.
  unfold slice_last. rewrite length_app, Nat.add_sub, skipn_app.
  rewrite skipn_all2 by lia. rewrite Nat.sub_diag. reflexivity.
Qed.

Lemma split_last3 {A} (l : list A) :
  3 <= length l -> exists mid x y z, l = mid ++ [x; y; z].
Proof.
  intros Hl. pose proof (firstn_skipn (length l - 3) l) as Hsplit.
  pose proof (length_skipn (length l - 3) l) as Hlen.
  destruct (skipn (length l - 3) l) as [|x [|y [|z [|u t]]]];
    simpl in Hlen; try lia.
  exists (firstn (length l - 3) l), x, y, z. now rewrite Hsplit.
Qed.

Section Runs.
Context {S : Str} {W : Type} `{Libs W}.

Lemma for_each_print_entry (l : list InputInfo) (w : W) :
  for_each l print_entry w
  = (w, map (fun info => EvPrint (entry_line info)) l, inr tt).
Proof. exact (ProgFacts.for_each_emit _ l w). Qed.

Lemma for_each_print_input_meta (session : list NodeArg) (w : W) :
  for_each session print_input_meta w
  = (w, map EvPrint (flat_map input_meta_lines session), inr tt).
Proof.
  induction session as [|m session IH]; simpl.
  - reflexivity.
  - unfold bind. rewrite CheckOnnxInputsSpec.print_input_meta_run, IH.
    now rewrite map_app.
Qed.

(** Lines 76-80: a group that is not the cache group prints its title
    and one line for each of its inputs, or nothing when it is empty. *)
Lemma print_group_run (c : Category) (l : list InputInfo) (w : W) :
  print_group c l w
  = (w, map EvPrint (match l with
                   | [] => []
                   | _ => L_group c :: map entry_line l
                   end), inr tt).
Proof.
  destruct l as [|i l]; [reflexivity|].
  unfold print_group, when, bind, print, emit. cbn [truthy_list].
  rewrite for_each_print_entry. simpl. now rewrite map_map.
Qed.

(** Lines 94-104, for a cache list that is not empty. *)
Lemma print_past_key_values_run (l : list InputInfo) (w : W) :
  l <> [] ->
  print_past_key_values l w
  = (w, map EvPrint
          ([L_pkv_header (length l)]
           ++ map entry_line (slice_to 3 l)
           ++ (if (6 <? length l)%nat
               then [L_elided (Z.of_nat (length l) - 6)] else [])
           ++ map entry_line (slice_last 3 l)), inr tt).
Proof.
  intros Hne. destruct l as [|i l']; [congruence|].
  unfold print_past_key_values. cbn [when truthy_list].
  generalize (i :: l'). intros l.
  unfold bind, print, emit. rewrite !for_each_print_entry.
  destruct (6 <? length l)%nat; unfold when, ret;
    rewrite ?for_each_print_entry; cbn [app map];
    rewrite ?map_app; cbn [app map]; rewrite ?map_map; reflexivity.
Qed.

Lemma print_past_key_values_nil (w : W) :
  print_past_key_values [] w = (w, [], inr tt).
Proof. reflexivity. Qed.

Lemma print_run (l : Line) (w : W) : print l w = (w, map EvPrint [l], inr tt).
Proof. reflexivity. Qed.

(** Two programs that only print, one after the other. *)
Lemma bind_prints {A B} (m : M W Event A) (f : A -> M W Event B)
    (a : A) (b : B) (ls1 ls2 : list Line) :
  (forall w, m w = (w, map EvPrint ls1, inr a)) ->
  (forall w, f a w = (w, map EvPrint ls2, inr b)) ->
  forall w, bind m f w = (w, map EvPrint (ls1 ++ ls2), inr b).
Proof.
  intros Hm Hf w. unfold bind. rewrite Hm, Hf, map_app. reflexivity.
Qed.

Lemma print_past_key_values_prints (l : list InputInfo) :
  exists ps, forall w : W,
    print_past_key_values l w = (w, map EvPrint ps, inr tt).
Proof.
  destruct l as [|i l].
  - exists []. reflexivity.
  - eexists. intros w. apply print_past_key_values_run. discriminate.
Qed.

(** The static phase only prints: it calls no library, leaves the world
    as it is and raises nothing. *)
Lemma static_phase_run (model : ModelProto) :
  exists ls, forall w : W,
    static_phase model w = (w, map EvPrint ls, inr tt).
Proof.
  destruct (print_past_key_values_prints
              (past_key_values_inputs (classify (graph_input model))))
    as [ps Hps].
  eexists. unfold static_phase.
  repeat (apply (bind_prints _ _ tt tt);
          [ first [ exact Hps
                  | intros w; apply print_run
                  | intros w; apply print_group_run ] | ]).
  intros w. apply print_group_run.
Qed.

Lemma print_group_lines (c : Category) (l : list InputInfo) (w w' : W) :
  print_group c l w'
  = (w', map EvPrint (lines (trace (print_group c l w))), inr tt).
Proof.
  rewrite !print_group_run. unfold trace. cbn [fst snd].
  now rewrite lines_map_Print.
Qed.

Lemma print_past_key_values_lines (l : list InputInfo) (w w' : W) :
  print_past_key_values l w'
  = (w', map EvPrint (lines (trace (print_past_key_values l w))), inr tt).
Proof.
  destruct (print_past_key_values_prints l) as [ps Hps].
  rewrite !Hps. unfold trace. cbn [fst snd]. now rewrite lines_map_Print.
Qed.

(** Lines 36-110: the static phase prints its title, the number of inputs
    and then the five groups in the order of the source, each on the list
    that the classification has filled. *)
Lemma static_phase_blocks (model : ModelProto) (w : W) :
  let b := classify (graph_input model) in
  lines (trace (static_phase model w))
  = [L_rule; L_static_title; L_rule; L_total (length (graph_input model))]
    ++ lines (trace (print_group InputsEmbeds (inputs_embeds_inputs b) w))
    ++ lines (trace (print_group AttentionMask (attention_mask_inputs b) w))
    ++ lines (trace (print_group PositionIds (position_ids_inputs b) w))
    ++ lines (trace (print_past_key_values (past_key_values_inputs b) w))
    ++ lines (trace (print_group Other (other_inputs b) w)).
Proof.
  intros b.
  assert (Hrun : forall w' : W,
             static_phase model w'
             = (w',
                map EvPrint
                  ([L_rule] ++ [L_static_title] ++ [L_rule]
                   ++ [L_total (length (graph_input model))]
                   ++ lines (trace (print_group InputsEmbeds
                                      (inputs_embeds_inputs b) w))
                   ++ lines (trace (print_group AttentionMask
                                      (attention_mask_inputs b) w))
                   ++ lines (trace (print_group PositionIds
                                      (position_ids_inputs b) w))
                   ++ lines (trace (print_past_key_values
                                      (past_key_values_inputs b) w))
                   ++ lines (trace (print_group Other (other_inputs b) w))),
                inr tt)).
  { unfold static_phase. fold b.
    repeat (apply (bind_prints _ _ tt tt);
            [ first [ intros w'; apply print_run
                    | intros w'; apply print_group_lines
                    | intros w'; apply print_past_key_values_lines ] | ]).
    intros w'. apply print_group_lines. }
  rewrite Hrun. unfold trace at 1. cbn [fst snd].
  rewrite lines_map_Print. reflexivity.
Qed.

(** Lines 94-104 for every cache list. *)
Lemma print_past_key_values_exact (l : list InputInfo) (w : W) :
  print_past_key_values l w
  = (w, map EvPrint
          (match l with
           | [] => []
           | _ => [L_pkv_header (length l)]
                  ++ map entry_line (slice_to 3 l)
                  ++ (if (6 <? length l)%nat
                      then [L_elided (Z.of_nat (length l) - 6)] else [])
                  ++ map entry_line (slice_last 3 l)
           end), inr tt).
Proof.
  destruct l as [|i l]; [reflexivity|].
  apply print_past_key_values_run. discriminate.
Qed.

(** Lines 36-110: the whole run of the static phase. *)
Lemma static_phase_exact (model : ModelProto) (w : W) :
  let b := classify (graph_input model) in
  let group := fun (c : Category) (l : list InputInfo) =>
                 match l with [] => [] | _ => L_group c :: map entry_line l end in
  let cache := fun l : list InputInfo =>
                 match l with
                 | [] => []
                 | _ => [L_pkv_header (length l)]
                        ++ map entry_line (slice_to 3 l)
                        ++ (if (6 <? length l)%nat
                            then [L_elided (Z.of_nat (length l) - 6)] else [])
                        ++ map entry_line (slice_last 3 l)
                 end in
  static_phase model w
  = (w,
     map EvPrint
       ([L_rule; L_static_title; L_rule; L_total (length (graph_input model))]
        ++ group InputsEmbeds (inputs_embeds_inputs b)
        ++ group AttentionMask (attention_mask_inputs b)
        ++ group PositionIds (position_ids_inputs b)
        ++ cache (past_key_values_inputs b)
        ++ group Other (other_inputs b)),
     inr tt).
Proof.
  intros b group cache. revert w.
  change ([L_rule; L_static_title; L_rule;
           L_total (length (graph_input model))]
          ++ group InputsEmbeds (inputs_embeds_inputs b)
          ++ group AttentionMask (attention_mask_inputs b)
          ++ group PositionIds (position_ids_inputs b)
          ++ cache (past_key_values_inputs b)
          ++ group Other (other_inputs b))
    with ([L_rule] ++ [L_static_title] ++ [L_rule]
          ++ [L_total (length (graph_input model))]
          ++ group InputsEmbeds (inputs_embeds_inputs b)
          ++ group AttentionMask (attention_mask_inputs b)
          ++ group PositionIds (position_ids_inputs b)
          ++ cache (past_key_values_inputs b)
          ++ group Other (other_inputs b)).
  unfold static_phase. fold b.
  repeat (apply (bind_prints _ _ tt tt);
          [ first [ intros w; apply print_run
                  | intros w; apply print_group_run
                  | intros w; apply print_past_key_values_exact ] | ]).
  intros w. apply print_group_run.
Qed.

(** Lines 112-140 when the session cannot be opened. *)
Lemma runtime_phase_failed (model_path e : string) (w w1 : W) :
  InferenceSession model_path w = (w1, inl e) ->
  runtime_phase model_path w
  = (w1,
     map EvPrint [L_blank_rule; L_runtime_title; L_rule]
     ++ EvInferenceSession model_path (inl e)
        :: map EvPrint [L_rt_failed e; L_rt_hint_missing; L_rt_hint_path],
     inr tt).
Proof.
  intros Hs. unfold runtime_phase, bind, try_except, call, print, emit.
  rewrite Hs. reflexivity.
Qed.

(** Lines 112-140 when the session opens. *)
Lemma runtime_phase_opened (model_path : string) (session : list NodeArg)
    (w w1 : W) :
  InferenceSession model_path w = (w1, inr session) ->
  runtime_phase model_path w
  = (w1,
     map EvPrint [L_blank_rule; L_runtime_title; L_rule]
     ++ EvInferenceSession model_path (inr session)
        :: map EvPrint (L_total (length session)
                      :: flat_map input_meta_lines session),
     inr tt).
Proof.
  intros Hs. unfold runtime_phase, bind, try_except, call, print, emit.
  rewrite Hs, for_each_print_input_meta. reflexivity.
Qed.

(** Lines 29-34: the load fails, the function returns. *)
Lemma analyze_load_failed (model_path e : string) (w w1 : W) :
  onnx_load model_path w = (w1, inl e) ->
  analyze_onnx_model model_path w
  = (w1,
     [EvPrint (L_analyzing model_path); EvPrint L_rule;
      EvOnnxLoad model_path (inl e); EvPrint (L_load_failed e)],
     inr tt).
Proof.
  intros Hl.
  unfold analyze_onnx_model, bind, try_except, call, print, emit, ret.
  rewrite Hl. reflexivity.
Qed.

(** Lines 29-140 when the load succeeds: the static listing, then the
    runtime phase, from the world the load has left. *)
Lemma analyze_loaded (model_path : string) (model : ModelProto) (w w1 : W) :
  onnx_load model_path w = (w1, inr model) ->
  exists ls,
    static_phase model w1 = (w1, map EvPrint ls, inr tt)
    /\ analyze_onnx_model model_path w
       = (final (runtime_phase model_path w1),
          [EvPrint (L_analyzing model_path); EvPrint L_rule;
           EvOnnxLoad model_path (inr model); EvPrint L_load_ok]
          ++ map EvPrint ls ++ trace (runtime_phase model_path w1),
          outcome (runtime_phase model_path w1)).
Proof.
  intros Hl. destruct (static_phase_run model) as [ls Hls].
  exists ls. split; [apply Hls|].
  unfold analyze_onnx_model, bind, try_except, call, print, emit, ret.
  rewrite Hl, Hls.
  destruct (runtime_phase model_path w1) as [[w2 t2] r2]. reflexivity.
Qed.

Lemma runtime_phase_returns (model_path : string) (w : W) :
  outcome (runtime_phase model_path w) = inr tt
  /\ load_calls (trace (runtime_phase model_path w)) = []
  /\ session_calls (trace (runtime_phase model_path w)) = [model_path].
Proof.
  destruct (InferenceSession model_path w) as [w1 [e | session]] eqn:Hs.
  - rewrite (runtime_phase_failed _ _ _ _ Hs). repeat split.
  - rewrite (runtime_phase_opened _ _ _ _ Hs). project_trace.
    repeat split.
Qed.

(** No exception leaves [analyze_onnx_model]. *)
Lemma analyze_returns (model_path : string) (w : W) :
  outcome (analyze_onnx_model model_path w) = inr tt.
Proof.
  destruct (onnx_load model_path w) as [w1 [e | model]] eqn:Hl.
  - now rewrite (analyze_load_failed _ _ _ _ Hl).
  - destruct (analyze_loaded _ _ _ _ Hl) as [ls [_ ->]].
    apply runtime_phase_returns.
Qed.

(** C2, amended: a failure of the static load is caught and reported,
    and the function then returns without opening a runtime session.  When
    the load succeeds the static listing is printed, whole and in the order
    of the source, and the runtime session is opened after it, once: when
    it cannot be opened the failure is caught and reported after the static
    listing, and when it opens the inputs it reports are listed.  The three
    runs are given event by event; no exception leaves the function. *)
Theorem phases_after_load (model_path : string) (w : W) :
  (forall e w1,
      onnx_load model_path w = (w1, inl e) ->
      analyze_onnx_model model_path w
      = (w1,
         [EvPrint (L_analyzing model_path); EvPrint L_rule;
          EvOnnxLoad model_path (inl e); EvPrint (L_load_failed e)],
         inr tt))
  /\ (forall model w1,
         onnx_load model_path w = (w1, inr model) ->
         let b := classify (graph_input model) in
         let group := fun (c : Category) (l : list InputInfo) =>
                        match l with
                        | [] => []
                        | _ => L_group c :: map entry_line l
                        end in
         let cache := fun l : list InputInfo =>
                        match l with
                        | [] => []
                        | _ => [L_pkv_header (length l)]
                               ++ map entry_line (slice_to 3 l)
                               ++ (if (6 <? length l)%nat
                                   then [L_elided (Z.of_nat (length l) - 6)]
                                   else [])
                               ++ map entry_line (slice_last 3 l)
                        end in
         let static :=
           [L_rule; L_static_title; L_rule;
            L_total (length (graph_input model))]
           ++ group InputsEmbeds (inputs_embeds_inputs b)
           ++ group AttentionMask (attention_mask_inputs b)
           ++ group PositionIds (position_ids_inputs b)
           ++ cache (past_key_values_inputs b)
           ++ group Other (other_inputs b) in
         let loaded :=
           [EvPrint (L_analyzing model_path); EvPrint L_rule;
            EvOnnxLoad model_path (inr model); EvPrint L_load_ok]
           ++ map EvPrint static
           ++ map EvPrint [L_blank_rule; L_runtime_title; L_rule] in
         (forall e w2,
             InferenceSession model_path w1 = (w2, inl e) ->
             analyze_onnx_model model_path w
             = (w2,
                loaded
                ++ EvInferenceSession model_path (inl e)
                   :: map EvPrint [L_rt_failed e; L_rt_hint_missing;
                                   L_rt_hint_path],
                inr tt))
         /\ (forall session w2,
                InferenceSession model_path w1 = (w2, inr session) ->
                analyze_onnx_model model_path w
                = (w2,
                   loaded
                   ++ EvInferenceSession model_path (inr session)
                      :: map EvPrint
                           (L_total (length session)
                            :: flat_map
                                 (fun m =>
                                    [L_rt_input (arg_name m);
                                     L_rt_shape (arg_shape m);
                                     L_rt_type (arg_type m)]
                                    ++ match dynamic_dims_of (arg_shape m) with
                                       | [] => []
                                       | dims => [L_rt_dynamic dims]
                                       end
                                    ++ [L_blank]) session),
                   inr tt))).
Proof.
  split.
  - intros e w1 Hl. now apply analyze_load_failed.
  - intros model w1 Hl b group cache static loaded.
    destruct (analyze_loaded _ _ _ _ Hl) as [ls [Hls Hrun]].
    pose proof (static_phase_exact model w1) as Hexact.
    cbv zeta in Hexact. fold b in Hexact. rewrite Hexact in Hls.
    assert (Hstatic : map EvPrint ls = map EvPrint static).
    { unfold static, group, cache. congruence. }
    rewrite Hstatic in Hrun. split.
    + intros e w2 Hs. rewrite Hrun, (runtime_phase_failed _ _ _ _ Hs).
      unfold final, trace, outcome, loaded. cbn [fst snd].
      rewrite <- !app_assoc. reflexivity.
    + intros session w2 Hs. rewrite Hrun, (runtime_phase_opened _ _ _ _ Hs).
      unfold final, trace, outcome, loaded. cbn [fst snd].
      rewrite <- !app_assoc. reflexivity.
Qed.

(** C3: a cache list of more than six inputs is listed as its title, its
    first three inputs, one line that gives the number of the inputs left
    out, the length less six, and its last three inputs. *)
Theorem cache_listing_elided (l : list InputInfo) (w : W) :
  6 < length l ->
  exists a b c mid x y z,
    l = [a; b; c] ++ mid ++ [x; y; z]
    /\ lines (trace (print_past_key_values l w))
       = [L_pkv_header (length l);
          entry_line a; entry_line b; entry_line c;
          L_elided (Z.of_nat (length l) - 6);
          entry_line x; entry_line y; entry_line z]
    /\ Z.of_nat (length mid) = (Z.of_nat (length l) - 6)%Z
    /\ length (filter is_entry
                 (lines (trace (print_past_key_values l w)))) = 6
    /\ length (filter is_elided
                 (lines (trace (print_past_key_values l w)))) = 1.
Proof.
  intros Hlen.
  destruct l as [|a [|b [|c rest]]]; simpl in Hlen; try lia.
  destruct (split_last3 rest) as [mid [x [y [z Hrest]]]]; [lia|].
  exists a, b, c, mid, x, y, z.
  assert (Hl : a :: b :: c :: rest = [a; b; c] ++ mid ++ [x; y; z])
    by (now rewrite Hrest).
  split; [exact Hl|].
  assert (Hlines : lines (trace (print_past_key_values
                                   (a :: b :: c :: rest) w))
                   = [L_pkv_header (length (a :: b :: c :: rest));
                      entry_line a; entry_line b; entry_line c;
                      L_elided (Z.of_nat (length (a :: b :: c :: rest)) - 6);
                      entry_line x; entry_line y; entry_line z]).
  { rewrite print_past_key_values_run by discriminate.
    unfold trace. cbn [fst snd]. rewrite lines_map_Print.
    replace (6 <? length (a :: b :: c :: rest))%nat with true
      by (symmetry; apply Nat.ltb_lt; simpl; lia).
    replace (slice_last 3 (a :: b :: c :: rest)) with [x; y; z].
    - reflexivity.
    - rewrite Hl.
      change ([a; b; c] ++ mid ++ [x; y; z])
        with (([a; b; c] ++ mid) ++ [x; y; z]) at 1.
      symmetry. apply (slice_last_app ([a; b; c] ++ mid) [x; y; z]). }
  split; [exact Hlines|]. split.
  - cbn [length]. rewrite Hrest, length_app. cbn [length]. lia.
  - rewrite Hlines. split; reflexivity.
Qed.

Lemma filter_is_entry_entries (l : list InputInfo) :
  filter is_entry (map entry_line l) = map entry_line l.
Proof. induction l as [|i l IH]; simpl; [|rewrite IH]; reflexivity. Qed.

Lemma filter_is_elided_entries (l : list InputInfo) :
  filter is_elided (map entry_line l) = [].
Proof. induction l as [|i l IH]; simpl; [|rewrite IH]; reflexivity. Qed.

(** C10: a cache list of one to six inputs is listed as its title, its
    first min(3, n) inputs and its last min(3, n) inputs, without a line
    for inputs left out: an input whose index is in both ranges is
    printed twice, and every input is when there are at most three. *)
Theorem cache_listing_short (l : list InputInfo) (w : W) :
  1 <= length l <= 6 ->
  let n := length l in
  let k := Nat.min 3 n in
  let out := lines (trace (print_past_key_values l w)) in
  out = L_pkv_header n
        :: map entry_line (firstn k l) ++ map entry_line (skipn (n - k) l)
  /\ length (filter is_entry out) = 2 * k
  /\ filter is_elided out = []
  /\ (forall i info,
         nth_error l i = Some info -> n - k <= i -> i < k ->
         nth_error out (1 + i) = Some (entry_line info)
         /\ nth_error out (1 + k + (i - (n - k))) = Some (entry_line info))
  /\ (n <= 3 ->
      out = L_pkv_header n :: map entry_line l ++ map entry_line l).
Proof.
  intros [H1 H6] n k out.
  assert (Hne : l <> []) by (intros ->; simpl in H1; lia).
  assert (Hfirst : slice_to 3 l = firstn k l).
  { unfold slice_to, k. destruct (le_lt_dec 3 n) as [Hle | Hlt].
    - now rewrite Nat.min_l.
    - rewrite Nat.min_r by lia. unfold n.
      rewrite firstn_all, firstn_all2 by (fold n; lia). reflexivity. }
  assert (Hlast : slice_last 3 l = skipn (n - k) l).
  { unfold slice_last, k. fold n. f_equal. lia. }
  assert (Hout : out = L_pkv_header n
                       :: map entry_line (firstn k l)
                          ++ map entry_line (skipn (n - k) l)).
  { unfold out. rewrite (print_past_key_values_run l w Hne).
    unfold trace. cbn [fst snd]. rewrite lines_map_Print.
    fold n. replace (6 <? n)%nat with false
      by (symmetry; apply Nat.ltb_ge; lia).
    rewrite Hfirst, Hlast. reflexivity. }
  assert (Hk : k <= n) by (unfold k; lia).
  split; [exact Hout|]. rewrite Hout. split; [|split; [|split]].
  - cbn [filter is_entry]. rewrite filter_app, !filter_is_entry_entries.
    rewrite length_app, !length_map, length_firstn, length_skipn.
    fold n. lia.
  - cbn [filter is_elided]. rewrite filter_app, !filter_is_elided_entries.
    reflexivity.
  - intros i info Hi Hlo Hhi. split.
    + cbn [Nat.add nth_error].
      rewrite nth_error_app1
        by (rewrite length_map, length_firstn; fold n; lia).
      rewrite nth_error_map, nth_error_firstn.
      replace (i <? k)%nat with true by (symmetry; apply Nat.ltb_lt; lia).
      now rewrite Hi.
    + cbn [Nat.add nth_error].
      rewrite nth_error_app2
        by (rewrite length_map, length_firstn; fold n; lia).
      rewrite length_map, length_firstn. fold n.
      rewrite nth_error_map, nth_error_skipn.
      replace (n - k + (k + (i - (n - k)) - Nat.min k n)) with i by lia.
      now rewrite Hi.
  - intros H3. replace k with n by (unfold k; lia).
    rewrite Nat.sub_diag. unfold n. rewrite firstn_all. reflexivity.
Qed.

(** C7: when the session opens, the runtime phase prints, for every
    input the session reports and in the order of the session, its name,
    its shape, its type and, when some dimension is dynamic, the list of
    the dynamic indices; an index is in that list exactly when the
    dimension at that index is a string or a negative integer, and the
    list is in increasing order. *)
Theorem dynamic_dims_listed (model_path : string) (session : list NodeArg)
    (w w1 : W) :
  InferenceSession model_path w = (w1, inr session) ->
  lines (trace (runtime_phase model_path w))
  = [L_blank_rule; L_runtime_title; L_rule; L_total (length session)]
    ++ flat_map
         (fun m =>
            [L_rt_input (arg_name m); L_rt_shape (arg_shape m);
             L_rt_type (arg_type m)]
            ++ match dynamic_dims_of (arg_shape m) with
               | [] => []
               | dims => [L_rt_dynamic dims]
               end
            ++ [L_blank]) session
  /\ (forall shape i,
         In i (dynamic_dims_of shape) <->
         exists d, nth_error shape i = Some d
                   /\ ((exists s, d = PStr s)
                       \/ (exists z, d = PInt z /\ (z < 0)%Z)))
  /\ (forall shape, StronglySorted lt (dynamic_dims_of shape)).
Proof.
  intros Hs. split; [|split].
  - rewrite (runtime_phase_opened _ _ _ _ Hs). project_trace. reflexivity.
  - apply CheckOnnxInputsSpec.dynamic_dims_In.
  - apply CheckOnnxInputsSpec.dynamic_dims_sorted.
Qed.

Lemma find_none_all {A} (f : A -> bool) (l : list A) :
  (forall x, In x l -> f x = false) -> find f l = None.
Proof.
  induction l as [|x l IH]; intros Hall; simpl.
  - reflexivity.
  - rewrite (Hall x) by now left.
    apply IH. intros y Hy. apply Hall. now right.
Qed.

(** Lines 156-157 and 175-177: an argument that names no file. *)
Lemma main_missing_argument (argv0 arg : string) (rest : list string) (w : W) :
  os_path_exists arg w = false ->
  main argv0 (arg :: rest) w
  = (w, [EvPrint (L_missing arg)], inl (SystemExit 1)).
Proof.
  intros Hex. unfold main, bind, ret, read, print, emit, sys_exit, raise.
  rewrite Hex. reflexivity.
Qed.

(** Lines 160-173: no argument and no candidate. *)
Lemma main_no_candidate (argv0 : string) (w : W) :
  (forall path, In path possible_paths -> os_path_exists path w = false) ->
  main argv0 [] w
  = (w,
     map EvPrint ([L_not_found; L_usage_header; L_usage argv0;
                 L_places_header] ++ map L_place possible_paths),
     inl (SystemExit 1)).
Proof.
  intros Hall.
  unfold main, first_existing, bind, ret, read, print, emit, sys_exit, raise.
  rewrite (find_none_all _ _ Hall). reflexivity.
Qed.

(** Lines 175-179: a path that names a file is analysed. *)
Lemma main_existing_argument (argv0 arg : string) (rest : list string) (w : W) :
  os_path_exists arg w = true ->
  main argv0 (arg :: rest) w = analyze_onnx_model arg w.
Proof.
  intros Hex. unfold main, bind, ret, read.
  rewrite Hex. cbn [negb].
  destruct (analyze_onnx_model arg w) as [[w1 t1] r1]. reflexivity.
Qed.

Lemma main_candidate (argv0 path : string) (w : W) :
  find (fun p => os_path_exists p w) possible_paths = Some path ->
  main argv0 [] w = analyze_onnx_model path w.
Proof.
  intros Hf. pose proof (find_some _ _ Hf) as [Hin Hex].
  assert (Ht : truthy_str path = true).
  { simpl in Hin. destruct Hin as [<- | [<- | [<- | [<- | []]]]];
      reflexivity. }
  unfold main, first_existing, bind, ret, read.
  rewrite Hf. cbn [truthy_opt_str]. rewrite Ht. cbn [negb].
  rewrite Hex. cbn [negb].
  destruct (analyze_onnx_model path w) as [[w1 t1] r1]. reflexivity.
Qed.

(** C8: when the argument names no file, main prints that and exits
    with status 1; without an argument, when no candidate exists, main
    prints the guidance and exits with status 1; and whenever main exits
    with status 1 it has neither loaded the graph nor opened a
    session. *)
Theorem main_exits_before_parsing (argv0 : string) (args : list string) (w : W) :
  (forall arg rest,
      args = arg :: rest ->
      os_path_exists arg w = false ->
      main argv0 args w = (w, [EvPrint (L_missing arg)], inl (SystemExit 1)))
  /\ (args = [] ->
      (forall path, In path possible_paths -> os_path_exists path w = false) ->
      main argv0 args w
      = (w,
         map EvPrint ([L_not_found; L_usage_header; L_usage argv0;
                     L_places_header] ++ map L_place possible_paths),
         inl (SystemExit 1)))
  /\ (outcome (main argv0 args w) = inl (SystemExit 1) ->
      load_calls (trace (main argv0 args w)) = []
      /\ session_calls (trace (main argv0 args w)) = []).
Proof.
  split; [|split].
  - intros arg rest -> Hex. now apply main_missing_argument.
  - intros -> Hall. now apply main_no_candidate.
  - intros Hexit. destruct args as [|arg rest].
    + destruct (find (fun p => os_path_exists p w) possible_paths)
        as [path|] eqn:Hf.
      * rewrite (main_candidate _ _ _ Hf) in Hexit.
        rewrite analyze_returns in Hexit. discriminate.
      * rewrite main_no_candidate by (apply find_none; exact Hf).
        project_trace. split; reflexivity.
    + destruct (os_path_exists arg w) eqn:Hex.
      * rewrite (main_existing_argument _ _ _ _ Hex) in Hexit.
        rewrite analyze_returns in Hexit. discriminate.
      * rewrite (main_missing_argument _ _ _ _ Hex). split; reflexivity.
Qed.

End Runs.

(** C2, as the claim states it, fails: in a world where the load of the
    graph raises and a session would open, the run loads, reports the
    failure and ends; no session is opened. *)
Lemma load_failure_skips_runtime :
  let r := @analyze_onnx_model Samples.ascii_str unit
             Samples.damaged_file_world "model.onnx" tt in
  @onnx_load unit Samples.damaged_file_world "model.onnx" tt
  = (tt, inl "Protobuf parsing failed.")
  /\ (exists session,
         @InferenceSession unit Samples.damaged_file_world "model.onnx" tt
         = (tt, inr session))
  /\ trace r = [EvPrint (L_analyzing "model.onnx"); EvPrint L_rule;
                EvOnnxLoad "model.onnx" (inl "Protobuf parsing failed.");
                EvPrint (L_load_failed "Protobuf parsing failed.")]
  /\ session_calls (trace r) = [].
Proof.
  cbv zeta. split; [reflexivity|]. split.
  - exists Samples.runtime_inputs. reflexivity.
  - split; vm_compute; reflexivity.
Qed.

Lemma phases_after_load_witness :
  session_calls
    (trace (@analyze_onnx_model Samples.ascii_str unit
              Samples.damaged_file_world "model.onnx" tt)) = []
  /\ session_calls
       (trace (@analyze_onnx_model Samples.ascii_str unit
                 Samples.no_backend_world "model.onnx" tt)) = ["model.onnx"]
  /\ outcome (@analyze_onnx_model Samples.ascii_str unit
                Samples.no_backend_world "model.onnx" tt) = inr tt
  /\ length (lines (trace (@analyze_onnx_model Samples.ascii_str unit
                             Samples.empty_disk_world "model.onnx" tt))) = 30.
Proof.
  split; [|split; [|split]].
  - destruct (@phases_after_load Samples.ascii_str unit
                Samples.damaged_file_world "model.onnx" tt) as [Hfailed _].
    rewrite (Hfailed "Protobuf parsing failed." tt eq_refl). reflexivity.
  - destruct (@phases_after_load Samples.ascii_str unit
                Samples.no_backend_world "model.onnx" tt) as [_ Hloaded].
    destruct (Hloaded Samples.decoder_model tt eq_refl) as [Hfail _].
    rewrite (Hfail "No execution provider." tt eq_refl). reflexivity.
  - destruct (@phases_after_load Samples.ascii_str unit
                Samples.no_backend_world "model.onnx" tt) as [_ Hloaded].
    destruct (Hloaded Samples.decoder_model tt eq_refl) as [Hfail _].
    rewrite (Hfail "No execution provider." tt eq_refl). reflexivity.
  - destruct (@phases_after_load Samples.ascii_str unit
                Samples.empty_disk_world "model.onnx" tt) as [_ Hloaded].
    destruct (Hloaded Samples.decoder_model tt eq_refl) as [_ Hopen].
    rewrite (Hopen Samples.runtime_inputs tt eq_refl). reflexivity.
Defined.

Lemma cache_listing_elided_witness :
  let l := past_key_values_inputs
             (@classify Samples.ascii_str Samples.decoder_inputs) in
  exists a b c mid x y z,
    l = [a; b; c] ++ mid ++ [x; y; z]
    /\ lines (trace (@print_past_key_values unit l tt))
       = [L_pkv_header (length l);
          entry_line a; entry_line b; entry_line c;
          L_elided (Z.of_nat (length l) - 6);
          entry_line x; entry_line y; entry_line z]
    /\ Z.of_nat (length mid) = (Z.of_nat (length l) - 6)%Z
    /\ length (filter is_entry
                 (lines (trace (@print_past_key_values unit l tt)))) = 6
    /\ length (filter is_elided
                 (lines (trace (@print_past_key_values unit l tt)))) = 1.
Proof.
  cbv zeta.
  apply (@cache_listing_elided unit
           (past_key_values_inputs
              (@classify Samples.ascii_str Samples.decoder_inputs)) tt).
  vm_compute. lia.
Defined.

Lemma cache_listing_short_witness :
  let l := past_key_values_inputs
             (@classify Samples.ascii_str Samples.small_inputs) in
  let out := lines (trace (@print_past_key_values unit l tt)) in
  length l = 2
  /\ length (filter is_entry out) = 4
  /\ filter is_elided out = []
  /\ out = L_pkv_header 2 :: map entry_line l ++ map entry_line l.
Proof.
  cbv zeta.
  destruct (@cache_listing_short unit
              (past_key_values_inputs
                 (@classify Samples.ascii_str Samples.small_inputs)) tt)
    as [_ [Hentries [Helided [_ Hall]]]].
  - vm_compute. lia.
  - split; [reflexivity|]. split; [exact Hentries|].
    split; [exact Helided|]. apply Hall. vm_compute. lia.
Defined.

Lemma dynamic_dims_listed_witness :
  lines (trace (@runtime_phase unit Samples.empty_disk_world "model.onnx" tt))
  = [L_blank_rule; L_runtime_title; L_rule; L_total 1;
     L_rt_input "inputs_embeds";
     L_rt_shape [PStr "batch_size"; PInt 1536; PInt (-1); PNone];
     L_rt_type "tensor(float)";
     L_rt_dynamic [0; 2];
     L_blank].
Proof.
  destruct (@dynamic_dims_listed unit Samples.empty_disk_world "model.onnx"
              Samples.runtime_inputs tt tt eq_refl) as [Hlines _].
  rewrite Hlines. reflexivity.
Defined.

Lemma main_exits_before_parsing_witness :
  @main Samples.ascii_str unit Samples.empty_disk_world
    "check_onnx_inputs.py" ["missing.onnx"] tt
  = (tt, [EvPrint (L_missing "missing.onnx")], inl (SystemExit 1))
  /\ @main Samples.ascii_str unit Samples.empty_disk_world
       "check_onnx_inputs.py" [] tt
     = (tt,
        map EvPrint ([L_not_found; L_usage_header;
                    L_usage "check_onnx_inputs.py"; L_places_header]
                   ++ map L_place possible_paths),
        inl (SystemExit 1)).
Proof.
  split.
  - destruct (@main_exits_before_parsing Samples.ascii_str unit
                Samples.empty_disk_world
                "check_onnx_inputs.py" ["missing.onnx"] tt) as [Harg _].
    apply (Harg "missing.onnx" []); reflexivity.
  - destruct (@main_exits_before_parsing Samples.ascii_str unit
                Samples.empty_disk_world
                "check_onnx_inputs.py" [] tt) as [_ [Hnone _]].
    apply Hnone; [reflexivity|]. intros path _. reflexivity.
Defined.

End CheckOnnxInputsRun.
(* ===================================================================== *)
(** * docs/tools/download_model.py *)
(* ===================================================================== *)

Module DownloadModelSpec.
Import Py Prog Prog.Notations DownloadModel.

Lemma requests_app (t u : list Event) :
  requests (t ++ u) = requests t ++ requests u.
Proof. apply flat_map_app. Qed.

Lemma outcomes_app (t u : list Event) :
  outcomes (t ++ u) = outcomes t ++ outcomes u.
Proof. apply flat_map_app. Qed.

Lemma printed_lines_app (t u : list Event) : lines (t ++ u) = lines t ++ lines u.
Proof. apply flat_map_app. Qed.

Lemma requests_map_Print (ls : list Line) : requests (map EvPrint ls) = [].
Proof. induction ls as [|l ls IH]; simpl; [|rewrite IH]; reflexivity. Qed.

Lemma outcomes_map_Print (ls : list Line) : outcomes (map EvPrint ls) = [].
Proof. induction ls as [|l ls IH]; simpl; [|rewrite IH]; reflexivity. Qed.

Lemma printed_lines_map_Print (ls : list Line) : lines (map EvPrint ls) = ls.
Proof. induction ls as [|l ls IH]; simpl; [|rewrite IH]; reflexivity. Qed.

Lemma map_inr_inj (l l' : list string) :
  map (@inr string string) l = map (@inr string string) l' -> l = l'.
Proof.
  revert l'. induction l as [|x l IH]; intros [|y l'] Heq; simpl in Heq;
    try discriminate; [reflexivity|].
  injection Heq as -> Hl. f_equal. now apply IH.
Qed.

Lemma map_inr_no_inl (l l' : list string) (e : string) :
  map (@inr string string) l ++ [inl e] <> map (@inr string string) l'.
Proof.
  revert l'. induction l as [|x l IH]; intros [|y l'] Heq; simpl in Heq;
    try discriminate.
  injection Heq as _ Hl. now apply IH in Hl.
Qed.

Section Runs.
Context {W : Type} `{Hub W}.

(** Lines 58-68, one turn whose retrieval raises: the loop ends. *)
Lemma download_each_raises (file_path e : string) (rest acc : list string)
    (w w1 : W) :
  hf_hub_download repo_id file_path local_dir w = (w1, inl e) ->
  download_each (file_path :: rest) acc w
  = (w1,
     [EvPrint (D_downloading file_path);
      EvDownload repo_id file_path local_dir (inl e)],
     inl (Exception e)).
Proof.
  intros Hd. cbn [download_each]. unfold bind, call, print, emit.
  rewrite Hd. reflexivity.
Qed.

(** Lines 58-68, one turn whose retrieval returns: the loop goes on
    with the next file. *)
Lemma download_each_returns (file_path local_file : string)
    (rest acc : list string) (w w1 : W) :
  hf_hub_download repo_id file_path local_dir w = (w1, inr local_file) ->
  download_each (file_path :: rest) acc w
  = (final (download_each rest (acc ++ [local_file]) w1),
     [EvPrint (D_downloading file_path);
      EvDownload repo_id file_path local_dir (inr local_file);
      EvPrint (D_done (os_path_basename local_file))]
     ++ trace (download_each rest (acc ++ [local_file]) w1),
     outcome (download_each rest (acc ++ [local_file]) w1)).
Proof.
  intros Hd. cbn [download_each]. unfold bind, call, print, emit.
  rewrite Hd.
  destruct (download_each rest (acc ++ [local_file]) w1) as [[w2 t2] r2].
  reflexivity.
Qed.

(** The loop either retrieves every file, or stops at the first
    retrieval that raises, its last event. *)
Lemma download_each_run (files acc : list string) (w : W) :
  let r := download_each files acc w in
  (exists paths,
      outcome r = inr (acc ++ paths)
      /\ length paths = length files
      /\ requests (trace r) = files
      /\ outcomes (trace r) = map inr paths
      /\ filter is_report (lines (trace r)) = [])
  \/ (exists k e paths file_path before,
         k < length files
         /\ length paths = k
         /\ nth_error files k = Some file_path
         /\ outcome r = inl (Exception e)
         /\ requests (trace r) = firstn (S k) files
         /\ outcomes (trace r) = map inr paths ++ [inl e]
         /\ trace r
            = before ++ [EvDownload repo_id file_path local_dir (inl e)]
         /\ filter is_report (lines (trace r)) = []).
Proof.
  revert acc w. induction files as [|file_path rest IH]; intros acc w r.
  - left. exists []. subst r. simpl. rewrite app_nil_r. repeat split.
  - destruct (hf_hub_download repo_id file_path local_dir w)
      as [w1 [e | local_file]] eqn:Hd; subst r.
    + right. rewrite (download_each_raises _ _ _ _ _ _ Hd).
      exists 0, e, [], file_path, [EvPrint (D_downloading file_path)].
      simpl. repeat split. lia.
    + rewrite (download_each_returns _ _ _ _ _ _ Hd).
      pose proof (IH (acc ++ [local_file]) w1) as IHr. cbv zeta in IHr.
      remember (download_each rest (acc ++ [local_file]) w1) as r eqn:Hr.
      clear Hr IH. unfold outcome, trace in *. cbn [fst snd] in *.
      destruct IHr
        as [[paths [Ho [Hlen [Hreq [Hout Hrep]]]]]
           | [k [e [paths [f [before
                [Hk [Hlen [Hnth [Ho [Hreq [Hout [Htr Hrep]]]]]]]]]]]]].
      * left. exists (local_file :: paths).
        rewrite Ho, <- app_assoc. split; [reflexivity|].
        split; [simpl; now rewrite Hlen|].
        rewrite requests_app, outcomes_app, printed_lines_app, filter_app.
        rewrite Hreq, Hout, Hrep. repeat split.
      * right. exists (S k), e, (local_file :: paths), f.
        exists ([EvPrint (D_downloading file_path);
                 EvDownload repo_id file_path local_dir (inr local_file);
                 EvPrint (D_done (os_path_basename local_file))] ++ before).
        split; [simpl; lia|]. split; [simpl; now rewrite Hlen|].
        split; [exact Hnth|]. split; [exact Ho|].
        rewrite requests_app, outcomes_app, printed_lines_app, filter_app.
        rewrite Hreq, Hout, Hrep, Htr, <- app_assoc. repeat split.
Qed.

(** Lines 73-75: the loop lists the files up to the first one whose size
    cannot be read, and there the exception of [os.path.getsize] leaves
    it. *)
Lemma for_each_report_file (downloaded_files : list string) (w : W) :
  (exists sizes,
      Forall2 (fun f z => os_path_getsize f w = inr z) downloaded_files sizes
      /\ for_each downloaded_files report_file w
         = (w,
            map EvPrint
              (map (fun fz => D_file (os_path_basename (fst fz)) (snd fz))
                 (combine downloaded_files sizes)),
            inr tt))
  \/ (exists listed sizes f rest e,
         downloaded_files = listed ++ f :: rest
         /\ Forall2 (fun f z => os_path_getsize f w = inr z) listed sizes
         /\ os_path_getsize f w = inl e
         /\ for_each downloaded_files report_file w
            = (w,
               map EvPrint
                 (map (fun fz => D_file (os_path_basename (fst fz)) (snd fz))
                    (combine listed sizes)),
               inl (Exception e))).
Proof.
  induction downloaded_files as [|f l IH].
  - left. exists []. split; [constructor | reflexivity].
  - destruct (os_path_getsize f w) as [e | z] eqn:Hz.
    + right. exists [], [], f, l, e. split; [reflexivity|].
      split; [constructor|]. split; [exact Hz|].
      assert (Hone : report_file f w = (w, [], inl (Exception e))).
      { unfold report_file, bind, attempt. now rewrite Hz. }
      cbn [for_each]. unfold bind at 1. rewrite Hone. reflexivity.
    + assert (Hstep : for_each (f :: l) report_file w
                      = (final (for_each l report_file w),
                         EvPrint (D_file (os_path_basename f) z)
                         :: trace (for_each l report_file w),
                         outcome (for_each l report_file w))).
      { assert (Hone : report_file f w
                       = (w, [EvPrint (D_file (os_path_basename f) z)],
                          inr tt)).
        { unfold report_file, bind, attempt, print, emit. now rewrite Hz. }
        cbn [for_each]. unfold bind at 1. rewrite Hone.
        destruct (for_each l report_file w) as [[w2 t2] r2]. reflexivity. }
      destruct IH as [[sizes [Hall Hrun]]
                     | [listed [sizes [f0 [rest [e [Hl [Hall [He Hrun]]]]]]]]].
      * left. exists (z :: sizes). split; [now constructor|].
        rewrite Hstep, Hrun. reflexivity.
      * right. exists (f :: listed), (z :: sizes), f0, rest, e.
        split; [now rewrite Hl|]. split; [now constructor|].
        split; [exact He|]. rewrite Hstep, Hrun. reflexivity.
Qed.

(** Lines 42-81 around the loop of lines 58-68 and the loop of lines
    73-75. *)
Lemma download_model_run (use_q4f16 : bool) (w : W) :
  download_model use_q4f16 w
  = match os_path_abspath local_dir w with
    | inl e =>
        (w, map EvPrint [D_q4f16_banner; D_int8_note; D_start repo_id],
         inl (Exception e))
    | inr dir =>
        let intro := map EvPrint [D_q4f16_banner; D_int8_note;
                                  D_start repo_id; D_location dir;
                                  D_count 6; D_wait] in
        let r := download_each required_files [] w in
        match outcome r with
        | inl (SystemExit code) =>
            (final r, intro ++ trace r, inl (SystemExit code))
        | inl (Exception e) =>
            (final r, intro ++ trace r ++ map EvPrint [D_failed e], inr false)
        | inr downloaded_files =>
            match os_path_abspath local_dir (final r) with
            | inl e =>
                (final r,
                 intro ++ trace r ++ map EvPrint [D_all_done; D_failed e],
                 inr false)
            | inr dir' =>
                let rep := for_each downloaded_files report_file (final r) in
                match outcome rep with
                | inr _ =>
                    (final rep,
                     intro ++ trace r
                     ++ map EvPrint [D_all_done; D_files_at dir';
                                     D_files_header]
                     ++ trace rep,
                     inr true)
                | inl (Exception e) =>
                    (final rep,
                     intro ++ trace r
                     ++ map EvPrint [D_all_done; D_files_at dir';
                                     D_files_header]
                     ++ trace rep ++ map EvPrint [D_failed e],
                     inr false)
                | inl (SystemExit code) =>
                    (final rep,
                     intro ++ trace r
                     ++ map EvPrint [D_all_done; D_files_at dir';
                                     D_files_header]
                     ++ trace rep,
                     inl (SystemExit code))
                end
            end
        end
    end.
Proof.
  unfold download_model. rewrite orb_true_r.
  unfold when, bind at 1 2 3 4 5 6 7, print, emit, attempt at 1.
  destruct (os_path_abspath local_dir w) as [e | dir]; [reflexivity|].
  cbv zeta. unfold try_except, bind at 1.
  destruct (download_each required_files [] w) as [[w1 t1] [[e | code] | l]];
    unfold final, trace, outcome; cbn [fst snd app map].
  - reflexivity.
  - reflexivity.
  - unfold bind, ret, attempt. cbv beta.
    destruct (os_path_abspath local_dir w1) as [e | dir'].
    + cbn [app]. rewrite <- ?app_assoc. reflexivity.
    + destruct (for_each l report_file w1) as [[w2 t2] [[e | code] | []]];
        cbn [fst snd app map]; rewrite <- ?app_assoc, ?app_nil_r;
        reflexivity.
Qed.

(** The events of a run: lines, then the events of the loop of lines
    58-68 if it is reached, then lines; no line outside the loop announces
    or acknowledges a retrieval. *)
Lemma download_model_shape (use_q4f16 : bool) (w : W) :
  exists pre t post,
    trace (download_model use_q4f16 w)
    = map EvPrint pre ++ t ++ map EvPrint post
    /\ (t = [] \/ t = trace (download_each required_files [] w))
    /\ Forall (fun l => match l with
                        | D_downloading _ | D_done _ => False
                        | _ => True
                        end) (pre ++ post).
Proof.
  rewrite download_model_run.
  destruct (os_path_abspath local_dir w) as [e | dir].
  - exists [D_q4f16_banner; D_int8_note; D_start repo_id], [], [].
    unfold trace. cbn [fst snd]. split; [now rewrite !app_nil_r|].
    split; [now left | repeat constructor].
  - cbv zeta.
    destruct (download_each required_files [] w) as [[w1 t1] [[e | code] | l]];
      unfold final, trace, outcome; cbn [fst snd].
    + exists [D_q4f16_banner; D_int8_note; D_start repo_id; D_location dir;
              D_count 6; D_wait], t1, [D_failed e].
      split; [reflexivity|]. split; [now right | repeat constructor].
    + exists [D_q4f16_banner; D_int8_note; D_start repo_id; D_location dir;
              D_count 6; D_wait], t1, [].
      split; [now rewrite app_nil_r|].
      split; [now right | repeat constructor].
    + destruct (os_path_abspath local_dir w1) as [e | dir'].
      * exists [D_q4f16_banner; D_int8_note; D_start repo_id; D_location dir;
                D_count 6; D_wait], t1, [D_all_done; D_failed e].
        split; [reflexivity|]. split; [now right | repeat constructor].
      * assert (Hrep : forall (fs : list string) (zs : list Z),
                   Forall (fun l => match l with
                                    | D_downloading _ | D_done _ => False
                                    | _ => True
                                    end)
                     (map (fun fz : string * Z =>
                             D_file (os_path_basename (fst fz)) (snd fz))
                        (combine fs zs))).
        { intros fs zs. apply Forall_forall. intros x Hx.
          apply in_map_iff in Hx. destruct Hx as [fz [<- _]]. exact I. }
        destruct (for_each_report_file l w1)
          as [[sizes [_ ->]]
             | [listed [sizes [f [rest [e [_ [_ [_ ->]]]]]]]]];
          cbn [fst snd].
        -- eexists [D_q4f16_banner; D_int8_note; D_start repo_id;
                    D_location dir; D_count 6; D_wait], t1, _.
           split; [rewrite <- map_app; reflexivity|].
           split; [now right|].
           apply Forall_app. split; [repeat constructor|].
           apply Forall_app. split; [repeat constructor | apply Hrep].
        -- eexists [D_q4f16_banner; D_int8_note; D_start repo_id;
                    D_location dir; D_count 6; D_wait], t1, _.
           split; [rewrite <- !map_app; reflexivity|].
           split; [now right|].
           apply Forall_app. split; [repeat constructor|].
           apply Forall_app. split; [repeat constructor|].
           apply Forall_app. split; [apply Hrep | repeat constructor].
Qed.

(** A run of [download_model] ends in one of five ways: the directory of
    line 51 cannot be resolved and the exception leaves the function; a
    retrieval raises; or the six retrievals return and then the directory
    of line 71 cannot be resolved, or every size is read, or the size of
    one file cannot be read. *)
Lemma download_model_cases (use_q4f16 : bool) (w : W) :
  let r := download_model use_q4f16 w in
  (exists e,
      os_path_abspath local_dir w = inl e
      /\ r = (w, map EvPrint [D_q4f16_banner; D_int8_note; D_start repo_id],
              inl (Exception e)))
  \/ (exists k e paths file_path before,
         k < 6
         /\ length paths = k
         /\ nth_error required_files k = Some file_path
         /\ outcome r = inr false
         /\ requests (trace r) = firstn (S k) required_files
         /\ outcomes (trace r) = map inr paths ++ [inl e]
         /\ trace r
            = before ++ [EvDownload repo_id file_path local_dir (inl e);
                         EvPrint (D_failed e)]
         /\ filter is_report (lines (trace r)) = [])
  \/ (exists paths before,
         requests (trace r) = required_files
         /\ outcomes (trace r) = map inr paths
         /\ length paths = 6
         /\ ((exists e,
                 os_path_abspath local_dir (final r) = inl e
                 /\ outcome r = inr false
                 /\ lines (trace r) = before ++ [D_all_done; D_failed e])
             \/ (exists dir sizes,
                    os_path_abspath local_dir (final r) = inr dir
                    /\ Forall2 (fun f z => os_path_getsize f (final r) = inr z)
                         paths sizes
                    /\ outcome r = inr true
                    /\ lines (trace r)
                       = before
                         ++ [D_all_done; D_files_at dir; D_files_header]
                         ++ map (fun fz => D_file (os_path_basename (fst fz))
                                             (snd fz))
                              (combine paths sizes))
             \/ (exists dir listed sizes f rest e,
                    os_path_abspath local_dir (final r) = inr dir
                    /\ paths = listed ++ f :: rest
                    /\ Forall2 (fun f z => os_path_getsize f (final r) = inr z)
                         listed sizes
                    /\ os_path_getsize f (final r) = inl e
                    /\ outcome r = inr false
                    /\ lines (trace r)
                       = before
                         ++ [D_all_done; D_files_at dir; D_files_header]
                         ++ map (fun fz => D_file (os_path_basename (fst fz))
                                             (snd fz))
                              (combine listed sizes)
                         ++ [D_failed e]))).
Proof.
  intros r. subst r. rewrite download_model_run.
  destruct (os_path_abspath local_dir w) as [e0 | dir0] eqn:Hdir0.
  { left. now exists e0. }
  right. cbv zeta.
  pose proof (download_each_run required_files [] w) as Hloop.
  cbv zeta in Hloop.
  destruct (download_each required_files [] w) as [[w0 t0] o0].
  unfold outcome, trace, final in Hloop. cbn [fst snd] in Hloop.
  unfold outcome, trace, final. cbn [fst snd].
  destruct Hloop
    as [[paths [Ho [Hlen [Hreq [Hout Hrep]]]]]
       | [k [e [paths [f [before
            [Hk [Hlen [Hnth [Ho [Hreq [Hout [Htr Hrep]]]]]]]]]]]]].
  - right. rewrite Ho. cbn [app].
    exists paths,
      ([D_q4f16_banner; D_int8_note; D_start repo_id;
        D_location dir0; D_count 6; D_wait] ++ lines t0).
    destruct (os_path_abspath local_dir w0) as [e1 | dir1] eqn:Hdir1.
    + unfold outcome, trace, final. cbn [fst snd].
      rewrite !requests_app, !outcomes_app, !printed_lines_app.
      rewrite !requests_map_Print, !outcomes_map_Print,
        !printed_lines_map_Print.
      rewrite Hreq, Hout, !app_nil_r. cbn [app].
      split; [reflexivity|]. split; [reflexivity|]. split; [exact Hlen|].
      left. exists e1. repeat split. exact Hdir1.
    + destruct (for_each_report_file paths w0)
        as [[sizes [Hall Hrun]]
           | [listed [sizes [f [rest [e [Hl [Hall [He Hrun]]]]]]]]];
        rewrite Hrun; unfold outcome, trace, final; cbn [fst snd];
        rewrite <- ?map_app;
        rewrite !requests_app, !outcomes_app, !printed_lines_app;
        rewrite !requests_map_Print, !outcomes_map_Print,
          !printed_lines_map_Print;
        rewrite Hreq, Hout, !app_nil_r; cbn [app];
        (split; [reflexivity|]); (split; [reflexivity|]);
        (split; [exact Hlen|]); right.
      * left. exists dir1, sizes. rewrite <- ?app_assoc.
        repeat split; assumption.
      * right. exists dir1, listed, sizes, f, rest, e.
        rewrite <- ?app_assoc. repeat split; assumption.
  - left. rewrite Ho.
    exists k, e, paths, f,
      (map EvPrint [D_q4f16_banner; D_int8_note; D_start repo_id;
                  D_location dir0; D_count 6; D_wait] ++ before).
    unfold outcome, trace, final. cbn [fst snd].
    split; [exact Hk|]. split; [exact Hlen|]. split; [exact Hnth|].
    split; [reflexivity|].
    rewrite !requests_app, !outcomes_app, !printed_lines_app, !filter_app.
    rewrite !requests_map_Print, !outcomes_map_Print, !printed_lines_map_Print.
    rewrite Hreq, Hout, Hrep, Htr, !app_nil_r.
    repeat split. rewrite <- !app_assoc. reflexivity.
Qed.

(** C4: the argument use_q4f16, and so the flags --q4f16 and -q of the
    command line, have no effect: the run (the requests, their order,
    what is printed, the returned boolean and the final world) is the
    same for both values and for every command line. *)
Theorem use_q4f16_has_no_effect :
  (forall w : W, download_model true w = download_model false w)
  /\ (forall (a b : bool) (w : W),
         requests (trace (download_model a w))
         = requests (trace (download_model b w))
         /\ outcome (download_model a w) = outcome (download_model b w))
  /\ (forall (argv argv' : list string) (w : W),
         script_main argv w = script_main argv' w).
Proof.
  assert (Hflag : forall (a b : bool) (w : W),
             download_model a w = download_model b w).
  { intros a b w. unfold download_model. now rewrite !orb_true_r. }
  split; [|split].
  - intros w. apply Hflag.
  - intros a b w. now rewrite (Hflag a b w).
  - intros argv argv' w. unfold script_main. cbv zeta.
    unfold bind, print, emit.
    rewrite (Hflag (mem_str "--q4f16" argv || mem_str "-q" argv)
               (mem_str "--q4f16" argv' || mem_str "-q" argv')).
    reflexivity.
Qed.


End Runs.



End DownloadModelSpec.

(* ===================================================================== *)
(** * tools/check_onnx_inputs.py: more on the classification *)
(* ===================================================================== *)

Module CheckOnnxInputsMore.
Import Py Prog Prog.Notations CheckOnnxInputs.

Section Names.
Context {S : Str}.

(** A name that starts with past_key_values holds it in lower case. *)
Lemma startswith_contains (nm : string) :
  startswith "past_key_values" nm = true ->
  contains "past_key_values" (str_lower nm) = true.
Proof.
  unfold startswith. intros Hp. apply PyFacts.prefix_app in Hp.
  destruct Hp as [rest ->].
  destruct (str_lower_ascii_prefix "past_key_values" rest eq_refl)
    as [t Ht].
  apply PyFacts.contains_iff. exists EmptyString, t. rewrite Ht. reflexivity.
Qed.

(** The chain of lines 64-73 is decided by the four tests on
    [name.lower()]: the tests [name == ...] and [name.startswith(...)]
    hold only where the test before the [or] holds. *)
Lemma category_of_chain (nm : string) :
  category_of nm
  = if contains "inputs_embeds" (str_lower nm) then InputsEmbeds
    else if contains "attention_mask" (str_lower nm) then AttentionMask
    else if contains "position_ids" (str_lower nm) then PositionIds
    else if contains "past_key_values" (str_lower nm) then PastKeyValues
    else Other.
Proof.
  unfold category_of.
  destruct (contains "inputs_embeds" (str_lower nm)) eqn:He; [reflexivity|].
  destruct (String.eqb_spec nm "inputs_embeds") as [->|_];
    [rewrite str_lower_ascii in He by reflexivity;
     vm_compute in He; discriminate|].
  destruct (contains "attention_mask" (str_lower nm)) eqn:Ha; [reflexivity|].
  destruct (String.eqb_spec nm "attention_mask") as [->|_];
    [rewrite str_lower_ascii in Ha by reflexivity;
     vm_compute in Ha; discriminate|].
  destruct (contains "position_ids" (str_lower nm)) eqn:Hi; [reflexivity|].
  destruct (String.eqb_spec nm "position_ids") as [->|_];
    [rewrite str_lower_ascii in Hi by reflexivity;
     vm_compute in Hi; discriminate|].
  destruct (contains "past_key_values" (str_lower nm)) eqn:Hp; [reflexivity|].
  destruct (startswith "past_key_values" nm) eqn:Hs; [|reflexivity].
  apply startswith_contains in Hs. congruence.
Qed.

(** X1: the category of a name is decided by which of the four fragments
    [name.lower()] holds, the first of inputs_embeds, attention_mask,
    position_ids, past_key_values that occurs; "other" is the category of the
    names whose lower-case form holds none.  The equality and prefix tests
    of the source add no case. *)
Theorem category_of_fragments (nm : string) :
  let has := fun fragment => contains fragment (str_lower nm) in
  (category_of nm = InputsEmbeds <-> has "inputs_embeds" = true)
  /\ (category_of nm = AttentionMask <->
      has "inputs_embeds" = false /\ has "attention_mask" = true)
  /\ (category_of nm = PositionIds <->
      has "inputs_embeds" = false /\ has "attention_mask" = false
      /\ has "position_ids" = true)
  /\ (category_of nm = PastKeyValues <->
      has "inputs_embeds" = false /\ has "attention_mask" = false
      /\ has "position_ids" = false /\ has "past_key_values" = true)
  /\ (category_of nm = Other <->
      has "inputs_embeds" = false /\ has "attention_mask" = false
      /\ has "position_ids" = false /\ has "past_key_values" = false).
Proof.
  cbv zeta. rewrite category_of_chain.
  destruct (contains "inputs_embeds" (str_lower nm));
    destruct (contains "attention_mask" (str_lower nm));
    destruct (contains "position_ids" (str_lower nm));
    destruct (contains "past_key_values" (str_lower nm));
    repeat split; intros; try discriminate; try reflexivity;
    repeat match goal with H : _ /\ _ |- _ => destruct H end;
    try discriminate; try reflexivity.
Qed.

(** X2: the classification does not depend on the case of the ASCII
    letters of the name: two names with the same lower-case form get the same
    category. *)
Theorem category_of_case_insensitive (nm nm' : string) :
  lower nm = lower nm' -> category_of nm = category_of nm'.
Proof.
  intros Hl. rewrite !category_of_chain.
  rewrite <- (str_lower_of_lower nm), <- (str_lower_of_lower nm'), Hl.
  reflexivity.
Qed.

Lemma all_buckets_step (c : Category) (info : InputInfo) (b : Buckets) :
  Permutation
    (inputs_embeds_inputs (append_to c info b)
     ++ attention_mask_inputs (append_to c info b)
     ++ position_ids_inputs (append_to c info b)
     ++ past_key_values_inputs (append_to c info b)
     ++ other_inputs (append_to c info b))
    ((inputs_embeds_inputs b ++ attention_mask_inputs b
      ++ position_ids_inputs b ++ past_key_values_inputs b
      ++ other_inputs b) ++ [info]).
Proof.
  destruct b as [l1 l2 l3 l4 l5]. destruct c; cbn [append_to
    inputs_embeds_inputs attention_mask_inputs position_ids_inputs
    past_key_values_inputs other_inputs].
  - rewrite <- !app_assoc. apply Permutation_app_head.
    etransitivity; [apply Permutation_app_comm|].
    rewrite <- !app_assoc. reflexivity.
  - rewrite <- !app_assoc. do 2 apply Permutation_app_head.
    etransitivity; [apply Permutation_app_comm|].
    rewrite <- !app_assoc. reflexivity.
  - rewrite <- !app_assoc. do 3 apply Permutation_app_head.
    etransitivity; [apply Permutation_app_comm|].
    rewrite <- !app_assoc. reflexivity.
  - rewrite <- !app_assoc. do 4 apply Permutation_app_head.
    apply Permutation_app_comm.
  - rewrite <- !app_assoc. reflexivity.
Qed.

Lemma all_buckets_fold (inputs : list ValueInfo) (b : Buckets) :
  let b' := fold_left classify_step inputs b in
  Permutation
    (inputs_embeds_inputs b' ++ attention_mask_inputs b'
     ++ position_ids_inputs b' ++ past_key_values_inputs b'
     ++ other_inputs b')
    ((inputs_embeds_inputs b ++ attention_mask_inputs b
      ++ position_ids_inputs b ++ past_key_values_inputs b
      ++ other_inputs b) ++ map input_info_of inputs).
Proof.
  revert b. induction inputs as [|t inputs IH]; intros b; cbn [fold_left map].
  - cbv zeta. now rewrite app_nil_r.
  - cbv zeta. etransitivity; [apply IH|].
    unfold classify_step at 1 2 3 4 5.
    etransitivity;
      [apply Permutation_app_tail, all_buckets_step|].
    rewrite <- app_assoc. reflexivity.
Qed.

(** X3: the loop of lines 53-73 splits the inputs among the five lists:
    the lists together hold every input once, each list holds the inputs of
    its category in the order of the graph, and the sizes add up to the
    number of inputs. *)
Theorem classify_partition (inputs : list ValueInfo) :
  let b := classify inputs in
  Permutation
    (inputs_embeds_inputs b ++ attention_mask_inputs b
     ++ position_ids_inputs b ++ past_key_values_inputs b ++ other_inputs b)
    (map input_info_of inputs)
  /\ (forall c,
         bucket c b
         = map input_info_of
             (filter (fun t => Category_eqb (category_of (name t)) c) inputs))
  /\ length (inputs_embeds_inputs b) + length (attention_mask_inputs b)
     + length (position_ids_inputs b) + length (past_key_values_inputs b)
     + length (other_inputs b) = length inputs.
Proof.
  intros b.
  assert (Hperm : Permutation
            (inputs_embeds_inputs b ++ attention_mask_inputs b
             ++ position_ids_inputs b ++ past_key_values_inputs b
             ++ other_inputs b)
            (map input_info_of inputs)).
  { apply (all_buckets_fold inputs no_inputs). }
  split; [exact Hperm|]. split.
  - intros c. apply CheckOnnxInputsSpec.bucket_classify.
  - apply Permutation_length in Hperm.
    rewrite !length_app, length_map in Hperm. lia.
Qed.

(** X4: in a displayed shape every integer is positive or is -1 and no
    string is empty. *)
Theorem displayed_elements (inputs : list ValueInfo) (c : Category) :
  Forall (fun info =>
            Forall (fun v => match v with
                             | SInt z => (0 < z)%Z \/ z = (-1)%Z
                             | SStr s => s <> EmptyString
                             end) (info_shape info))
         (bucket c (classify inputs)).
Proof.
  apply Forall_forall. intros info Hin.
  apply CheckOnnxInputsSpec.In_bucket in Hin.
  destruct Hin as [t [_ [_ <-]]]. simpl.
  apply Forall_forall. intros v Hv. apply in_map_iff in Hv.
  destruct Hv as [d [<- _]]. unfold display_dim.
  destruct (Z.gtb_spec (dim_value d) 0) as [Hgt | Hle].
  - left. lia.
  - destruct (dim_param d) eqn:Hp; simpl; [now right | discriminate].
Qed.

End Names.

Lemma category_of_case_insensitive_witness :
  @category_of Samples.ascii_str "Past_Key_Values.0.KEY"
  = @category_of Samples.ascii_str "past_key_values.0.key".
Proof.
  apply (@category_of_case_insensitive Samples.ascii_str
           "Past_Key_Values.0.KEY" "past_key_values.0.key").
  vm_compute. reflexivity.
Defined.

End CheckOnnxInputsMore.

(* ===================================================================== *)
(** * tools/check_onnx_inputs.py: more on the listing and on main *)
(* ===================================================================== *)

Module CheckOnnxInputsListing.
Import Py Prog Prog.Notations CheckOnnxInputs.

Lemma enumerate_from_app {A} (l1 l2 : list A) (k : nat) :
  enumerate_from k (l1 ++ l2)
  = enumerate_from k l1 ++ enumerate_from (k + length l1) l2.
Proof.
  revert k. induction l1 as [|x l1 IH]; intros k; simpl.
  - now rewrite Nat.add_0_r.
  - rewrite IH. do 3 f_equal. lia.
Qed.

Lemma dynamic_from_shift (shape : list PyDim) (k n : nat) :
  map fst (filter (fun p => is_dynamic (snd p)) (enumerate_from (n + k) shape))
  = map (Nat.add n)
      (map fst (filter (fun p => is_dynamic (snd p)) (enumerate_from k shape))).
Proof.
  revert k. induction shape as [|d shape IH]; intros k;
    cbn [enumerate_from filter snd].
  - reflexivity.
  - destruct (is_dynamic d); cbn [map fst];
      replace (S (n + k)) with (n + S k) by lia; rewrite IH; reflexivity.
Qed.

(** X5: the dynamic indices of a shape made of two parts are those of the
    first part followed by those of the second part shifted by the length of
    the first; every index is an index of the shape; and the list is empty
    exactly when no dimension is a string or a negative integer. *)
Theorem dynamic_dims_compose (s1 s2 : list PyDim) :
  dynamic_dims_of (s1 ++ s2)
  = dynamic_dims_of s1 ++ map (Nat.add (length s1)) (dynamic_dims_of s2)
  /\ Forall (fun i => i < length s1) (dynamic_dims_of s1)
  /\ (dynamic_dims_of s1 = [] <-> forallb (fun d => negb (is_dynamic d)) s1 = true).
Proof.
  split; [|split].
  - unfold dynamic_dims_of, enumerate.
    rewrite enumerate_from_app, filter_app, map_app. f_equal.
    rewrite <- (dynamic_from_shift s2 0 (length s1)).
    now rewrite Nat.add_0_r.
  - apply Forall_forall. intros i Hi.
    apply CheckOnnxInputsSpec.dynamic_dims_In in Hi.
    destruct Hi as [d [Hn _]]. apply nth_error_Some. congruence.
  - unfold dynamic_dims_of, enumerate. generalize 0.
    induction s1 as [|d s1 IH]; intros k; simpl.
    + split; reflexivity.
    + destruct (is_dynamic d); simpl.
      * split; discriminate.
      * apply IH.
Qed.

Section Listing.
Context {S : Str} {W : Type} `{Libs W}.

Lemma group_lines (c : Category) (l : list InputInfo) (w : W) :
  lines (trace (print_group c l w))
  = match l with [] => [] | _ => L_group c :: map entry_line l end.
Proof.
  rewrite CheckOnnxInputsRun.print_group_run. unfold trace. cbn [fst snd].
  apply CheckOnnxInputsRun.lines_map_Print.
Qed.

Lemma In_group_entry (c : Category) (l : list InputInfo) (info : InputInfo)
    (w : W) :
  In info l -> In (entry_line info) (lines (trace (print_group c l w))).
Proof.
  intros Hin. rewrite group_lines. destruct l as [|i l]; [destruct Hin|].
  right. now apply in_map.
Qed.

Lemma In_group_title (c c' : Category) (l : list InputInfo) (w : W) :
  In (L_group c) (lines (trace (print_group c' l w))) <-> c = c' /\ l <> [].
Proof.
  rewrite group_lines. destruct l as [|i l].
  - split; [intros [] | intros [_ Hne]; congruence].
  - split.
    + intros [Heq | Hin].
      * inversion Heq. split; [reflexivity | discriminate].
      * apply in_map_iff in Hin. destruct Hin as [x [Hx _]]. discriminate.
    + intros [-> _]. now left.
Qed.

Lemma cache_lines_no_title (c : Category) (l : list InputInfo) (w : W) :
  ~ In (L_group c) (lines (trace (print_past_key_values l w))).
Proof.
  destruct l as [|i l]; [intros []|].
  rewrite CheckOnnxInputsRun.print_past_key_values_run by discriminate.
  unfold trace. cbn [fst snd]. rewrite CheckOnnxInputsRun.lines_map_Print.
  rewrite !in_app_iff. intros [Hh | [He | [Hd | He]]].
  - destruct Hh as [Hh | []]. discriminate.
  - apply in_map_iff in He. destruct He as [x [Hx _]]. discriminate.
  - destruct (6 <? length (i :: l))%nat; [|destruct Hd].
    destruct Hd as [Hd | []]. discriminate.
  - apply in_map_iff in He. destruct He as [x [Hx _]]. discriminate.
Qed.

(** X6: in the static listing every input that is not a cache input has
    its line, whatever the size of its group, and the title of a group other
    than the cache group is printed exactly when the group is not empty. *)
Theorem static_listing_complete (model : ModelProto) (w : W) :
  let out := lines (trace (static_phase model w)) in
  let b := classify (graph_input model) in
  (forall t,
      In t (graph_input model) ->
      category_of (name t) <> PastKeyValues ->
      In (entry_line (input_info_of t)) out)
  /\ (forall c,
         c <> PastKeyValues ->
         (In (L_group c) out <-> bucket c b <> [])).
Proof.
  intros out b. unfold out.
  rewrite CheckOnnxInputsRun.static_phase_blocks. cbv zeta. fold b. split.
  - intros t Hin Hc.
    assert (Hb : In (input_info_of t) (bucket (category_of (name t)) b)).
    { apply CheckOnnxInputsSpec.In_bucket. now exists t. }
    rewrite !in_app_iff. right.
    destruct (category_of (name t)); cbn [bucket] in Hb.
    + left. now apply In_group_entry.
    + right. left. now apply In_group_entry.
    + right. right. left. now apply In_group_entry.
    + congruence.
    + right. right. right. right. now apply In_group_entry.
  - intros c Hc. rewrite !in_app_iff, !In_group_title.
    pose proof (cache_lines_no_title c (past_key_values_inputs b) w) as Hp.
    destruct c; cbn [bucket]; try congruence;
      (split;
       [ intros [Hh | [Hg | [Hg | [Hg | [Hg | Hg]]]]];
         try (destruct Hg as [Heq Hne]; first [discriminate | exact Hne]);
         try contradiction;
         repeat (destruct Hh as [Hh | Hh]; try discriminate); destruct Hh
       | intros Hne; right; tauto ]).
Qed.

(** X7: when the session opens, the runtime phase prints its title, the
    number of inputs the session reports and then their names in the order
    of the session; it leaves the world as the session left it and raises
    nothing. *)
Theorem runtime_listing (model_path : string) (session : list NodeArg)
    (w w1 : W) :
  InferenceSession model_path w = (w1, inr session) ->
  let r := runtime_phase model_path w in
  outcome r = inr tt
  /\ final r = w1
  /\ firstn 4 (lines (trace r))
     = [L_blank_rule; L_runtime_title; L_rule; L_total (length session)]
  /\ flat_map (fun l => match l with L_rt_input nm => [nm] | _ => [] end)
       (lines (trace r))
     = map arg_name session.
Proof.
  intros Hs r. subst r.
  rewrite (CheckOnnxInputsRun.runtime_phase_opened _ _ _ _ Hs).
  unfold outcome, final, trace. cbn [fst snd].
  split; [reflexivity|]. split; [reflexivity|].
  rewrite CheckOnnxInputsRun.lines_app,
    (CheckOnnxInputsRun.lines_cons _ (map EvPrint _)),
    !CheckOnnxInputsRun.lines_map_Print.
  cbn [lines flat_map app firstn]. split; [reflexivity|].
  clear Hs. induction session as [|m session IH]; [reflexivity|].
  cbn [flat_map map]. rewrite flat_map_app, IH.
  unfold input_meta_lines. rewrite !flat_map_app.
  destruct (dynamic_dims_of (arg_shape m)); reflexivity.
Qed.

(** X8: main exits with status 1 exactly when the argument names no file
    or, without argument, when no candidate exists; in every other run it
    returns, also when the analysis could load nothing. *)
Theorem main_exit_status (argv0 : string) (args : list string) (w : W) :
  (outcome (main argv0 args w) = inl (SystemExit 1) <->
   match args with
   | arg :: _ => os_path_exists arg w = false
   | [] => forallb (fun path => negb (os_path_exists path w)) possible_paths
           = true
   end)
  /\ (outcome (main argv0 args w) = inl (SystemExit 1)
      \/ outcome (main argv0 args w) = inr tt).
Proof.
  destruct args as [|arg rest].
  - destruct (find (fun p => os_path_exists p w) possible_paths)
      as [path|] eqn:Hf.
    + rewrite (CheckOnnxInputsRun.main_candidate _ _ _ Hf).
      rewrite CheckOnnxInputsRun.analyze_returns.
      split; [|now right]. split; [discriminate|].
      intros Hall. exfalso.
      destruct (find_some _ _ Hf) as [Hin Hex].
      rewrite forallb_forall in Hall. specialize (Hall _ Hin).
      rewrite Hex in Hall. discriminate.
    + pose proof (find_none _ _ Hf) as Hnone.
      rewrite CheckOnnxInputsRun.main_no_candidate by exact Hnone.
      split; [|now left]. split; [|reflexivity].
      intros _. apply forallb_forall. intros p Hp.
      now rewrite (Hnone p Hp).
  - destruct (os_path_exists arg w) eqn:Hex.
    + rewrite (CheckOnnxInputsRun.main_existing_argument _ _ _ _ Hex).
      rewrite CheckOnnxInputsRun.analyze_returns.
      split; [|now right]. split; discriminate.
    + rewrite (CheckOnnxInputsRun.main_missing_argument _ _ _ _ Hex).
      split; [|now left]. split; reflexivity.
Qed.

Lemma find_first {A} (f : A -> bool) (before after : list A) (x : A) :
  (forall y, In y before -> f y = false) -> f x = true ->
  find f (before ++ x :: after) = Some x.
Proof.
  intros Hb Hx. induction before as [|y before IH]; simpl.
  - now rewrite Hx.
  - rewrite (Hb y) by now left. apply IH. intros z Hz. apply Hb. now right.
Qed.

(** X9: main analyses the argument when it names a file, whatever
    follows it on the command line and whatever candidates exist; without
    argument it analyses the first candidate of the list that exists. *)
Theorem main_resolves_path (argv0 : string) (w : W) :
  (forall arg rest,
      os_path_exists arg w = true ->
      main argv0 (arg :: rest) w = analyze_onnx_model arg w)
  /\ (forall before path after,
         possible_paths = before ++ path :: after ->
         (forall q, In q before -> os_path_exists q w = false) ->
         os_path_exists path w = true ->
         main argv0 [] w = analyze_onnx_model path w).
Proof.
  split.
  - intros arg rest Hex. now apply CheckOnnxInputsRun.main_existing_argument.
  - intros before path after Hp Hb Hex.
    apply CheckOnnxInputsRun.main_candidate. rewrite Hp.
    now apply find_first.
Qed.

End Listing.

Lemma static_listing_complete_witness :
  let out := lines (trace (@static_phase Samples.ascii_str unit
                             Samples.decoder_model tt)) in
  In (entry_line (input_info_of
                    (Samples.tensor "attention_mask"
                       [(0%Z, "batch_size"); (0%Z, EmptyString)]))) out
  /\ (In (L_group Other) out <->
      bucket Other (@classify Samples.ascii_str Samples.decoder_inputs) <> []).
Proof.
  cbv zeta.
  destruct (@static_listing_complete Samples.ascii_str unit
              Samples.decoder_model tt)
    as [Hentry Htitle].
  split.
  - apply Hentry.
    + simpl. right. left. reflexivity.
    + vm_compute. discriminate.
  - apply (Htitle Other). discriminate.
Defined.

Lemma runtime_listing_witness :
  let r := @runtime_phase unit Samples.empty_disk_world "model.onnx" tt in
  outcome r = inr tt
  /\ final r = tt
  /\ firstn 4 (lines (trace r))
     = [L_blank_rule; L_runtime_title; L_rule; L_total 1]
  /\ flat_map (fun l => match l with L_rt_input nm => [nm] | _ => [] end)
       (lines (trace r))
     = ["inputs_embeds"].
Proof.
  cbv zeta.
  apply (@runtime_listing unit Samples.empty_disk_world "model.onnx"
           Samples.runtime_inputs tt tt).
  reflexivity.
Defined.

Lemma main_resolves_path_witness :
  @main Samples.ascii_str unit MoreSamples.relative_paths_world
    "check_onnx_inputs.py"
    ["models/vl/decoder_model_merged_q4f16.onnx"; "ignored"] tt
  = @analyze_onnx_model Samples.ascii_str unit
      MoreSamples.relative_paths_world
      "models/vl/decoder_model_merged_q4f16.onnx" tt
  /\ @main Samples.ascii_str unit MoreSamples.relative_paths_world
       "check_onnx_inputs.py" [] tt
     = @analyze_onnx_model Samples.ascii_str unit
         MoreSamples.relative_paths_world
         "models/vl/decoder_model_merged_q4f16.onnx" tt.
Proof.
  destruct (@main_resolves_path Samples.ascii_str unit
              MoreSamples.relative_paths_world
              "check_onnx_inputs.py" tt) as [Harg Hcand].
  split.
  - apply Harg. reflexivity.
  - apply (Hcand
             ["E:\AutoTestDemo\TestWings\models\vl\decoder_model_merged_q4f16.onnx";
              "C:\Users\ch2oh\AppData\Local\Android\Sdk\platform-tools\models\vl\decoder_model_merged_q4f16.onnx"]
             "models/vl/decoder_model_merged_q4f16.onnx"
             ["../models/vl/decoder_model_merged_q4f16.onnx"]).
    + reflexivity.
    + intros q [<- | [<- | []]]; reflexivity.
    + reflexivity.
Defined.

End CheckOnnxInputsListing.
(* ===================================================================== *)
(** * docs/tools/download_model.py: more on the batch *)
(* ===================================================================== *)

Module DownloadModelMore.
Import Py Prog Prog.Notations DownloadModel.

(** Lines that neither announce nor acknowledge a retrieval. *)
Lemma silent_lines (h : Line -> list string) (ls : list Line) :
  (forall l, match l with
             | D_downloading _ | D_done _ => True
             | _ => h l = []
             end) ->
  Forall (fun l => match l with
                   | D_downloading _ | D_done _ => False
                   | _ => True
                   end) ls ->
  flat_map h ls = [].
Proof.
  intros Hh Hall. induction Hall as [|l ls Hl _ IH]; simpl; [reflexivity|].
  rewrite IH, app_nil_r. specialize (Hh l). destruct l; tauto.
Qed.

Section Batch.
Context {W : Type} `{Hub W}.

Lemma download_each_events (files acc : list string) (w : W) :
  Forall (fun ev => match ev with
                    | EvDownload repo filename dir _ =>
                        repo = repo_id /\ dir = local_dir
                    | EvPrint _ => True
                    end) (trace (download_each files acc w))
  /\ flat_map (fun l => match l with D_downloading f => [f] | _ => [] end)
       (lines (trace (download_each files acc w)))
     = requests (trace (download_each files acc w))
  /\ flat_map (fun l => match l with D_done b => [b] | _ => [] end)
       (lines (trace (download_each files acc w)))
     = map os_path_basename
         (flat_map (fun r => match r with inr p => [p] | inl _ => [] end)
            (outcomes (trace (download_each files acc w)))).
Proof.
  revert acc w. induction files as [|file_path rest IH]; intros acc w.
  - simpl. repeat split. constructor.
  - destruct (hf_hub_download repo_id file_path local_dir w)
      as [w1 [e | local_file]] eqn:Hd.
    + rewrite (DownloadModelSpec.download_each_raises _ _ _ _ _ _ Hd).
      unfold trace. cbn [fst snd]. repeat split.
      repeat constructor.
    + rewrite (DownloadModelSpec.download_each_returns _ _ _ _ _ _ Hd).
      destruct (IH (acc ++ [local_file]) w1) as [Hev [Hann Hdone]].
      remember (download_each rest (acc ++ [local_file]) w1) as r eqn:Hr.
      clear Hr IH. unfold trace in *. cbn [fst snd] in *.
      rewrite DownloadModelSpec.printed_lines_app,
        DownloadModelSpec.requests_app, DownloadModelSpec.outcomes_app.
      rewrite !flat_map_app, map_app, Hann, Hdone.
      split; [|split; reflexivity].
      apply Forall_app. split; [|exact Hev]. repeat constructor.
Qed.

Lemma requests_prefix (use_q4f16 : bool) (w : W) :
  exists k, requests (trace (download_model use_q4f16 w))
            = firstn k required_files.
Proof.
  destruct (DownloadModelSpec.download_model_cases use_q4f16 w)
    as [[e [_ Hrun]]
       | [[k [e [paths [f [before [_ [_ [_ [_ [Hreq _]]]]]]]]]]
         | [paths [before [Hreq _]]]]].
  - exists 0. rewrite Hrun. unfold trace. cbn [fst snd].
    apply DownloadModelSpec.requests_map_Print.
  - exists (S k). exact Hreq.
  - exists 6. exact Hreq.
Qed.

(** X11: every retrieval asks the repository
    onnx-community/Qwen2-VL-2B-Instruct for a file of the fixed list, into
    the current directory, and no file is asked for twice. *)
Theorem requests_are_fixed (use_q4f16 : bool) (w : W) :
  let r := download_model use_q4f16 w in
  Forall (fun ev => match ev with
                    | EvDownload repo filename dir _ =>
                        repo = "onnx-community/Qwen2-VL-2B-Instruct"
                        /\ dir = "."
                    | EvPrint _ => True
                    end) (trace r)
  /\ incl (requests (trace r)) required_files
  /\ NoDup (requests (trace r)).
Proof.
  intros r. split; [|split].
  - subst r.
    destruct (DownloadModelSpec.download_model_shape use_q4f16 w)
      as [pre [t [post [-> [Ht _]]]]].
    assert (Hprints : forall ls : list Line,
               Forall (fun ev => match ev with
                                 | EvDownload repo filename dir _ =>
                                     repo = "onnx-community/Qwen2-VL-2B-Instruct"
                                     /\ dir = "."
                                 | EvPrint _ => True
                                 end) (map EvPrint ls)).
    { intros ls. apply Forall_forall. intros ev Hin.
      apply in_map_iff in Hin. destruct Hin as [l0 [<- _]]. exact I. }
    rewrite !Forall_app. split; [apply Hprints|]. split; [|apply Hprints].
    destruct Ht as [-> | ->]; [constructor|].
    apply (download_each_events required_files [] w).
  - destruct (requests_prefix use_q4f16 w) as [k Hk]. fold r in Hk.
    rewrite Hk. intros x Hx. rewrite <- (firstn_skipn k required_files).
    apply in_or_app. now left.
  - destruct (requests_prefix use_q4f16 w) as [k Hk]. fold r in Hk.
    rewrite Hk.
    assert (Hnd : NoDup required_files).
    { unfold required_files. simpl.
      repeat (constructor; [simpl; intuition discriminate|]). constructor. }
    rewrite <- (firstn_skipn k required_files) in Hnd.
    now apply NoDup_app_remove_r in Hnd.
Qed.

(** X12: every retrieval is announced by a line with the file name asked
    for, in the order of the retrievals, and every retrieval that returned
    is acknowledged by a line with the base name, as [os.path.basename] of
    the platform gives it, of the path it returned. *)
Theorem progress_lines (use_q4f16 : bool) (w : W) :
  let r := download_model use_q4f16 w in
  flat_map (fun l => match l with D_downloading f => [f] | _ => [] end)
    (lines (trace r))
  = requests (trace r)
  /\ flat_map (fun l => match l with D_done b => [b] | _ => [] end)
       (lines (trace r))
     = map os_path_basename
         (flat_map (fun r => match r with inr p => [p] | inl _ => [] end)
            (outcomes (trace r))).
Proof.
  intros r. subst r.
  destruct (DownloadModelSpec.download_model_shape use_q4f16 w)
    as [pre [t [post [-> [Ht Hsilent]]]]].
  apply Forall_app in Hsilent. destruct Hsilent as [Hpre Hpost].
  rewrite !DownloadModelSpec.printed_lines_app,
    !DownloadModelSpec.requests_app, !DownloadModelSpec.outcomes_app,
    !DownloadModelSpec.printed_lines_map_Print,
    !DownloadModelSpec.requests_map_Print,
    !DownloadModelSpec.outcomes_map_Print.
  rewrite !flat_map_app.
  rewrite !(silent_lines _ pre), !(silent_lines _ post);
    try assumption; try (intros []; reflexivity || exact I).
  rewrite !app_nil_r. cbn [app].
  destruct Ht as [-> | ->]; [split; reflexivity|].
  destruct (download_each_events required_files [] w) as [_ [Hann Hdone]].
  split; assumption.
Qed.

End Batch.

End DownloadModelMore.

(* ===================================================================== *)
(** * tools/verify_official_format.py: the report *)
(* ===================================================================== *)

Module VerifyOfficialFormatMore.
Import Py Prog Prog.Notations VerifyOfficialFormat.


Section Report.
Context {W : Type} `{Transformers W}.

(** X15: when the tokenizer cannot be loaded the exception leaves main:
    nothing catches it, and only the first line has been printed. *)
Theorem main_load_failure (e : string) (w w1 : W) :
  from_pretrained "Qwen/Qwen2-VL-2B-Instruct" w = (w1, inl e) ->
  main w
  = (w1,
     [EvPrint V_loading;
      EvFromPretrained "Qwen/Qwen2-VL-2B-Instruct" (inl e)],
     inl (Exception e)).
Proof.
  intros Hload. unfold main, bind, call, print, emit. rewrite Hload.
  reflexivity.
Qed.

(** X17: the two listings of a sequence, its first 30 and its last 30
    tokens, the eighth and the ninth line of a block, have min(30, n) tokens
    each, are a prefix and a suffix of the sequence, and are both the whole
    sequence when it has at most 30 tokens. *)
Theorem shown_token_slices (tokenizer : Tokenizer) (with_prompt : bool) (w : W) :
  let ids := encode tokenizer (apply_chat_template tokenizer with_prompt) in
  let out := flat_map (fun ev => match ev with EvPrint l => [l] | _ => [] end)
               (trace (show_variant tokenizer with_prompt w)) in
  exists first last,
    nth_error out 7 = Some (V_first first)
    /\ nth_error out 8 = Some (V_last last)
    /\ length first = Nat.min 30 (length ids)
    /\ length last = Nat.min 30 (length ids)
    /\ (exists rest, ids = first ++ rest)
    /\ (exists rest, ids = rest ++ last)
    /\ (length ids <= 30 -> first = ids /\ last = ids).
Proof.
  intros ids out. exists (slice_to 30 ids), (slice_last 30 ids).
  split; [reflexivity|]. split; [reflexivity|].
  unfold slice_to, slice_last. split; [apply length_firstn|].
  split; [rewrite length_skipn; lia|]. split; [|split].
  - exists (skipn 30 ids). now rewrite firstn_skipn.
  - exists (firstn (length ids - 30) ids). now rewrite firstn_skipn.
  - intros Hle. split; [now apply firstn_all2|].
    replace (length ids - 30) with 0 by lia. reflexivity.
Qed.

End Report.

Lemma main_load_failure_witness :
  @main unit VerifierSamples.offline_world tt
  = (tt,
     [EvPrint V_loading;
      EvFromPretrained "Qwen/Qwen2-VL-2B-Instruct" (inl "Connection error.")],
     inl (Exception "Connection error.")).
Proof.
  apply (@main_load_failure unit VerifierSamples.offline_world
           "Connection error." tt tt).
  reflexivity.
Defined.

Lemma shown_token_slices_witness :
  let ids := encode VerifierSamples.byte_tokenizer
               (apply_chat_template VerifierSamples.byte_tokenizer false) in
  exists first last,
    nth_error
      (flat_map (fun ev => match ev with EvPrint l => [l] | _ => [] end)
         (trace (@show_variant unit VerifierSamples.byte_tokenizer false tt)))
      7 = Some (V_first first)
    /\ first = ids /\ last = ids.
Proof.
  cbv zeta.
  destruct (@shown_token_slices unit VerifierSamples.byte_tokenizer false tt)
    as [first [last [Hf [_ [_ [_ [_ [_ Hall]]]]]]]].
  exists first, last. split; [exact Hf|]. apply Hall. vm_compute. lia.
Defined.

End VerifyOfficialFormatMore.

(* ===================================================================== *)
(** * tools/chat_onnx_reference.py: the cache and the inputs of a step *)
(* ===================================================================== *)

Module ChatOnnxReferenceSpec.
Import Py Prog Prog.Notations ChatOnnxReference.

Lemma str_int_inj (a b : Z) : str_int a = str_int b -> a = b.
Proof.
  unfold str_int. intros Heq. apply DecimalZ.to_int_inj.
  assert (Hnn : forall z, Z.to_int z <> Decimal.Pos Decimal.Nil
                          /\ Z.to_int z <> Decimal.Neg Decimal.Nil).
  { intros [|p|p]; simpl; split; try discriminate;
      intros Hn; inversion Hn as [Hp];
      now apply DecimalPos.Unsigned.to_uint_nonnil in Hp. }
  pose proof (NilZero.isi (Z.to_int a) (proj1 (Hnn a)) (proj2 (Hnn a))) as Ha.
  pose proof (NilZero.isi (Z.to_int b) (proj1 (Hnn b)) (proj2 (Hnn b))) as Hb.
  rewrite Heq in Ha. congruence.
Qed.

Lemma append_inj (p a b : string) : (p ++ a)%string = (p ++ b)%string -> a = b.
Proof.
  induction p as [|c p IH]; simpl; intros Heq; [exact Heq|].
  inversion Heq. now apply IH.
Qed.

Lemma past_key_in_inj (i j : nat) : past_key_in i = past_key_in j -> i = j.
Proof.
  unfold past_key_in. intros Heq. apply append_inj, str_int_inj in Heq. lia.
Qed.

Lemma past_value_in_inj (i j : nat) : past_value_in i = past_value_in j -> i = j.
Proof.
  unfold past_value_in. intros Heq. apply append_inj, str_int_inj in Heq. lia.
Qed.

Lemma past_key_value_distinct (i j : nat) : past_key_in i <> past_value_in j.
Proof. unfold past_key_in, past_value_in. simpl. intros Heq. inversion Heq. Qed.

Lemma past_keys_fresh (i : nat) :
  past_key_in i <> "input_ids" /\ past_key_in i <> "attention_mask"
  /\ past_value_in i <> "input_ids" /\ past_value_in i <> "attention_mask".
Proof.
  unfold past_key_in, past_value_in. simpl.
  repeat split; intros Heq; inversion Heq.
Qed.

Lemma dict_get_set_same (k : string) (v : Array) (d : Dict) :
  dict_get k (dict_set k v d) = Some v.
Proof.
  induction d as [|[k' v'] d IH]; simpl.
  - now rewrite String.eqb_refl.
  - destruct (String.eqb k k') eqn:Hk; simpl.
    + now rewrite String.eqb_refl.
    + now rewrite Hk.
Qed.

Lemma dict_get_set_other (k k' : string) (v : Array) (d : Dict) :
  k <> k' -> dict_get k (dict_set k' v d) = dict_get k d.
Proof.
  intros Hne. induction d as [|[k0 v0] d IH]; simpl.
  - destruct (String.eqb_spec k k'); [contradiction | reflexivity].
  - destruct (String.eqb_spec k' k0) as [-> | Hk0]; simpl.
    + destruct (String.eqb_spec k k0); [contradiction | reflexivity].
    + destruct (String.eqb_spec k k0); [reflexivity | exact IH].
Qed.

Lemma length_dict_set_fresh (k : string) (v : Array) (d : Dict) :
  dict_get k d = None -> length (dict_set k v d) = S (length d).
Proof.
  induction d as [|[k0 v0] d IH]; simpl; intros Hg; [reflexivity|].
  destruct (String.eqb k k0); [discriminate|]. simpl. now rewrite IH.
Qed.

Lemma fold_left_append {A B} (x : A) (l : list B) (acc : list A) :
  fold_left (fun a (_ : B) => a ++ [x]) l acc = acc ++ repeat x (length l).
Proof.
  revert acc. induction l as [|y l IH]; intros acc; simpl.
  - now rewrite app_nil_r.
  - rewrite IH, <- app_assoc. reflexivity.
Qed.

(** X18: the cache built before the first inference holds 2 * n_layer
    arrays, all of type float16 and of shape (1, n_kv_heads, 0, dim_head),
    so none has an element: the sequence length of the cache is zero. *)
Theorem initial_cache_is_empty (s : Sizes) :
  length (get_reply_past_key_values s) = 2 * n_layer s
  /\ Forall (fun a => arr_shape a = [1; n_kv_heads s; 0; dim_head s]
                      /\ arr_dtype a = "float16"
                      /\ arr_data a = [])
       (get_reply_past_key_values s).
Proof.
  unfold get_reply_past_key_values. rewrite fold_left_append, length_seq.
  cbn [app]. split; [apply repeat_length|].
  apply Forall_forall. intros a Ha. apply repeat_spec in Ha. subst a.
  unfold np_zeros, size_of. cbn [arr_shape arr_dtype arr_data fold_right].
  repeat split.
  replace (1 * (n_kv_heads s * (0 * (dim_head s * 1)))) with 0 by lia.
  reflexivity.
Qed.

Section Step.
Context {W : Type} `{Sessions W}.

Lemma generate_layers_run (layers : list nat) (past_key_values : list Array)
    (inputs : Dict) (w : W) :
  (forall i, In i layers -> 2 * i + 1 < length past_key_values) ->
  NoDup layers ->
  (forall i, In i layers ->
             dict_get (past_key_in i) inputs = None
             /\ dict_get (past_value_in i) inputs = None) ->
  exists inputs',
    generate_layers layers past_key_values inputs w = (w, [], inr inputs')
    /\ (forall i, In i layers ->
                  dict_get (past_key_in i) inputs'
                  = nth_error past_key_values (2 * i)
                  /\ dict_get (past_value_in i) inputs'
                     = nth_error past_key_values (2 * i + 1))
    /\ (forall k, (forall i, In i layers ->
                             k <> past_key_in i /\ k <> past_value_in i) ->
                  dict_get k inputs' = dict_get k inputs)
    /\ length inputs' = length inputs + 2 * length layers.
Proof.
  revert inputs. induction layers as [|i rest IH]; intros inputs Hlen Hnd Hfresh.
  - exists inputs. split; [reflexivity|]. split; [intros i []|].
    split; [reflexivity | simpl; lia].
  - inversion Hnd as [|? ? Hnotin Hnd']; subst.
    assert (Hi : 2 * i + 1 < length past_key_values)
      by (apply Hlen; now left).
    destruct (nth_error past_key_values (2 * i)) as [key|] eqn:Hkey;
      [|apply nth_error_None in Hkey; lia].
    destruct (nth_error past_key_values (2 * i + 1)) as [value|] eqn:Hvalue;
      [|apply nth_error_None in Hvalue; lia].
    destruct (Hfresh i (or_introl eq_refl)) as [Hfk Hfv].
    set (inputs1 := dict_set (past_value_in i) value
                      (dict_set (past_key_in i) key inputs)).
    destruct (IH inputs1) as [inputs' [Hrun [Hbound [Hother Hsize]]]].
    + intros j Hj. apply Hlen. now right.
    + exact Hnd'.
    + intros j Hj. destruct (Hfresh j (or_intror Hj)) as [Hjk Hjv].
      assert (Hij : j <> i) by (intros ->; contradiction).
      unfold inputs1. split.
      * rewrite dict_get_set_other by apply past_key_value_distinct.
        rewrite dict_get_set_other; [exact Hjk|].
        intros Heq. now apply past_key_in_inj in Heq.
      * rewrite dict_get_set_other.
        -- rewrite dict_get_set_other; [exact Hjv|].
           intros Heq. symmetry in Heq.
           now apply past_key_value_distinct in Heq.
        -- intros Heq. now apply past_value_in_inj in Heq.
    + exists inputs'. split; [|split; [|split]].
      * cbn [generate_layers]. cbv zeta. unfold bind, list_index.
        rewrite Hkey, Hvalue. unfold ret. fold inputs1. rewrite Hrun.
        reflexivity.
      * intros j [<- | Hj]; [|now apply Hbound].
        assert (Hk : forall k, k = past_key_in i \/ k = past_value_in i ->
                               dict_get k inputs' = dict_get k inputs1).
        { intros k Hk. apply Hother. intros j Hj.
          assert (Hij : j <> i) by (intros ->; contradiction).
          destruct Hk as [-> | ->]; split; intros Heq.
          - apply past_key_in_inj in Heq. congruence.
          - now apply past_key_value_distinct in Heq.
          - symmetry in Heq. now apply past_key_value_distinct in Heq.
          - apply past_value_in_inj in Heq. congruence. }
        rewrite !Hk by tauto. unfold inputs1. split.
        -- rewrite dict_get_set_other by apply past_key_value_distinct.
           now rewrite dict_get_set_same.
        -- now rewrite dict_get_set_same.
      * intros k Hk. rewrite Hother.
        -- destruct (Hk i (or_introl eq_refl)) as [Hk1 Hk2].
           unfold inputs1. now rewrite !dict_get_set_other.
        -- intros j Hj. apply Hk. now right.
      * rewrite Hsize. unfold inputs1.
        rewrite length_dict_set_fresh.
        -- rewrite length_dict_set_fresh by exact Hfk. simpl. lia.
        -- rewrite dict_get_set_other; [exact Hfv|].
           intros Heq. symmetry in Heq.
           now apply past_key_value_distinct in Heq.
Qed.

Lemma generate_layers_raises (layers : list nat) (past_key_values : list Array)
    (inputs : Dict) (w : W) :
  (exists i, In i layers /\ length past_key_values <= 2 * i + 1) ->
  generate_layers layers past_key_values inputs w
  = (w, [], inl (Exception "list index out of range")).
Proof.
  revert inputs. induction layers as [|i rest IH]; intros inputs [j [Hj Hshort]].
  - destruct Hj.
  - cbn [generate_layers]. cbv zeta. unfold bind, list_index.
    destruct (nth_error past_key_values (2 * i)) as [key|] eqn:Hkey;
      [|reflexivity].
    destruct (nth_error past_key_values (2 * i + 1)) as [value|] eqn:Hvalue;
      [|reflexivity].
    unfold ret. rewrite IH; [reflexivity|].
    destruct Hj as [<- | Hj].
    + apply nth_error_None in Hshort. congruence.
    + now exists j.
Qed.

Lemma generate_inputs_run (s : Sizes) (input_ids : Array)
    (past_key_values : list Array) (w : W) :
  2 * n_layer s <= length past_key_values ->
  exists inputs,
    generate_inputs s input_ids past_key_values w = (w, [], inr inputs)
    /\ dict_get "input_ids" inputs = Some input_ids
    /\ dict_get "attention_mask" inputs = Some (np_ones_like input_ids)
    /\ (forall i, i < n_layer s ->
                  dict_get (past_key_in i) inputs
                  = nth_error past_key_values (2 * i)
                  /\ dict_get (past_value_in i) inputs
                     = nth_error past_key_values (2 * i + 1))
    /\ length inputs = 2 + 2 * n_layer s.
Proof.
  intros Hlen. unfold generate_inputs. cbv zeta.
  change (dict_set "attention_mask" (np_ones_like input_ids)
            (dict_set "input_ids" input_ids []))
    with [("input_ids", input_ids); ("attention_mask", np_ones_like input_ids)].
  destruct (generate_layers_run (seq 0 (n_layer s)) past_key_values
              [("input_ids", input_ids);
               ("attention_mask", np_ones_like input_ids)] w)
    as [inputs [Hrun [Hbound [Hother Hsize]]]].
  - intros i Hi. apply in_seq in Hi. lia.
  - apply seq_NoDup.
  - intros i _. destruct (past_keys_fresh i) as [Hk1 [Hk2 [Hv1 Hv2]]].
    cbn [dict_get].
    destruct (String.eqb_spec (past_key_in i) "input_ids"); [contradiction|].
    destruct (String.eqb_spec (past_key_in i) "attention_mask");
      [contradiction|].
    destruct (String.eqb_spec (past_value_in i) "input_ids"); [contradiction|].
    destruct (String.eqb_spec (past_value_in i) "attention_mask");
      [contradiction|].
    split; reflexivity.
  - exists inputs. split; [exact Hrun|].
    assert (Hkept : forall k, k = "input_ids" \/ k = "attention_mask" ->
                              dict_get k inputs
                              = dict_get k [("input_ids", input_ids);
                                            ("attention_mask",
                                             np_ones_like input_ids)]).
    { intros k Hk. apply Hother. intros i _.
      destruct (past_keys_fresh i) as [Hk1 [Hk2 [Hv1 Hv2]]].
      destruct Hk as [-> | ->]; split; congruence. }
    split; [rewrite Hkept by tauto; reflexivity|].
    split; [rewrite Hkept by tauto; reflexivity|]. split.
    + intros i Hi. apply Hbound. apply in_seq. lia.
    + rewrite Hsize, length_seq. reflexivity.
Qed.

(** X19: [generate] raises IndexError when it is given fewer than
    2 * n_layer cache arrays, before any session is run. *)
Theorem generate_needs_full_cache (s : Sizes) (input_ids : Array)
    (past_key_values : list Array) (w : W) :
  length past_key_values < 2 * n_layer s ->
  generate s input_ids past_key_values w
  = (w, [], inl (Exception "list index out of range")).
Proof.
  intros Hshort. unfold generate, bind, generate_inputs. cbv zeta.
  rewrite generate_layers_raises; [reflexivity|].
  exists (n_layer s - 1). split; [apply in_seq|]; lia.
Qed.

(** X20: given at least 2 * n_layer cache arrays, the dict of a step
    binds input_ids, an attention mask of ones of the shape of input_ids,
    and for every layer i the keys past_key_in<i> and past_value_in<i> to the
    cache arrays 2i and 2i+1: 2 + 2 * n_layer keys, and no session is run
    while the dict is built. *)
Theorem generate_inputs_bindings (s : Sizes) (input_ids : Array)
    (past_key_values : list Array) (w : W) :
  2 * n_layer s <= length past_key_values ->
  exists inputs,
    generate_inputs s input_ids past_key_values w = (w, [], inr inputs)
    /\ dict_get "input_ids" inputs = Some input_ids
    /\ (exists mask,
           dict_get "attention_mask" inputs = Some mask
           /\ arr_shape mask = arr_shape input_ids
           /\ Forall (fun x => x = 1%Z) (arr_data mask))
    /\ (forall i, i < n_layer s ->
                  dict_get (past_key_in i) inputs
                  = nth_error past_key_values (2 * i)
                  /\ dict_get (past_value_in i) inputs
                     = nth_error past_key_values (2 * i + 1))
    /\ length inputs = 2 + 2 * n_layer s.
Proof.
  intros Hlen.
  destruct (generate_inputs_run s input_ids past_key_values w Hlen)
    as [inputs [Hrun [Hids [Hmask [Hbound Hsize]]]]].
  exists inputs. split; [exact Hrun|]. split; [exact Hids|].
  split; [|split; assumption].
  exists (np_ones_like input_ids). split; [exact Hmask|].
  split; [reflexivity|]. simpl. apply Forall_forall. intros x Hx.
  now apply repeat_spec in Hx.
Qed.

(** X21: the cache of [get_reply_with_implicit_history] fits [generate]:
    with it the dict of the first step is built without an IndexError and
    binds every past_key_in<i> and past_value_in<i> to an empty float16
    array of shape (1, n_kv_heads, 0, dim_head). *)
Theorem generate_first_step (s : Sizes) (input_ids : Array) (w : W) :
  exists inputs,
    generate_inputs s input_ids (get_reply_past_key_values s) w
    = (w, [], inr inputs)
    /\ length inputs = 2 + 2 * n_layer s
    /\ Forall (fun i =>
                 dict_get (past_key_in i) inputs
                 = Some (np_zeros [1; n_kv_heads s; 0; dim_head s] "float16")
                 /\ dict_get (past_value_in i) inputs
                    = Some (np_zeros [1; n_kv_heads s; 0; dim_head s]
                              "float16"))
         (seq 0 (n_layer s)).
Proof.
  assert (Hcache : get_reply_past_key_values s
                   = repeat (np_zeros [1; n_kv_heads s; 0; dim_head s]
                               "float16") (2 * n_layer s)).
  { unfold get_reply_past_key_values.
    now rewrite fold_left_append, length_seq. }
  destruct (generate_inputs_run s input_ids (get_reply_past_key_values s) w)
    as [inputs [Hrun [_ [_ [Hbound Hsize]]]]].
  { rewrite Hcache, repeat_length. lia. }
  exists inputs. split; [exact Hrun|]. split; [exact Hsize|].
  apply Forall_forall. intros i Hi. apply in_seq in Hi.
  destruct (Hbound i) as [Hk Hv]; [lia|].
  rewrite Hk, Hv, Hcache. split; apply nth_error_repeat; lia.
Qed.

(** X22: a step that goes through returns the output of the logits
    session and, as the new cache, the outputs of the session after the
    first; the logits session receives all_input_ids and the last position of
    the first output. *)
Theorem generate_result (s : Sizes) (input_ids first logits : Array)
    (past_key_values rest result : list Array) (inputs : Dict) (w w1 w2 : W) :
  generate_inputs s input_ids past_key_values w = (w, [], inr inputs) ->
  session_run inputs w = (w1, inr (first :: rest)) ->
  last_position first = inr logits ->
  logits_session_run
    (dict_set "logits" logits (dict_set "all_input_ids" input_ids [])) w1
  = (w2, inr result) ->
  generate s input_ids past_key_values w
  = (w2,
     [EvSessionRun inputs (inr (first :: rest));
      EvLogitsRun
        (dict_set "logits" logits (dict_set "all_input_ids" input_ids []))
        (inr result)],
     inr (result, rest)).
Proof.
  intros Hin Hrun Hslice Hlogits.
  unfold generate, bind. rewrite Hin. unfold call. rewrite Hrun.
  unfold list_index. cbn [nth_error]. unfold ret at 1.
  rewrite Hslice. unfold ret at 1. rewrite Hlogits. reflexivity.
Qed.

(** X23: nothing in [generate] catches an exception: when the session
    raises, or returns no output, or the slice of its first output raises,
    the exception leaves [generate] and the logits session is not run. *)
Theorem generate_failures (s : Sizes) (input_ids : Array)
    (past_key_values : list Array) (inputs : Dict) (w w1 : W) :
  generate_inputs s input_ids past_key_values w = (w, [], inr inputs) ->
  (forall e,
      session_run inputs w = (w1, inl e) ->
      generate s input_ids past_key_values w
      = (w1, [EvSessionRun inputs (inl e)], inl (Exception e)))
  /\ (session_run inputs w = (w1, inr []) ->
      generate s input_ids past_key_values w
      = (w1, [EvSessionRun inputs (inr [])],
         inl (Exception "list index out of range")))
  /\ (forall first rest e,
         session_run inputs w = (w1, inr (first :: rest)) ->
         last_position first = inl e ->
         generate s input_ids past_key_values w
         = (w1, [EvSessionRun inputs (inr (first :: rest))],
            inl (Exception e))).
Proof.
  intros Hin. split; [|split].
  - intros e Hrun. unfold generate, bind. rewrite Hin. unfold call.
    rewrite Hrun. reflexivity.
  - intros Hrun. unfold generate, bind. rewrite Hin. unfold call.
    rewrite Hrun. reflexivity.
  - intros first rest e Hrun Hslice. unfold generate, bind. rewrite Hin.
    unfold call. rewrite Hrun. unfold list_index. cbn [nth_error].
    unfold ret at 1. rewrite Hslice. reflexivity.
Qed.

End Step.

Lemma generate_needs_full_cache_witness :
  @generate unit ReferenceSamples.sessions_world ReferenceSamples.two_layers
    ReferenceSamples.prompt_ids
    [ReferenceSamples.cache_array 1; ReferenceSamples.cache_array 2;
     ReferenceSamples.cache_array 3] tt
  = (tt, [], inl (Exception "list index out of range")).
Proof.
  apply (@generate_needs_full_cache unit ReferenceSamples.sessions_world).
  simpl. lia.
Defined.

Lemma generate_inputs_bindings_witness :
  exists inputs,
    @generate_inputs unit ReferenceSamples.two_layers
      ReferenceSamples.prompt_ids
      [ReferenceSamples.cache_array 1; ReferenceSamples.cache_array 2;
       ReferenceSamples.cache_array 3; ReferenceSamples.cache_array 4] tt
    = (tt, [], inr inputs)
    /\ length inputs = 6.
Proof.
  destruct (@generate_inputs_bindings unit ReferenceSamples.two_layers
              ReferenceSamples.prompt_ids
              [ReferenceSamples.cache_array 1; ReferenceSamples.cache_array 2;
               ReferenceSamples.cache_array 3; ReferenceSamples.cache_array 4]
              tt)
    as [inputs [Hrun [_ [_ [_ Hsize]]]]].
  - simpl. lia.
  - exists inputs. split; [exact Hrun | exact Hsize].
Defined.

Lemma generate_result_witness :
  outcome (@generate unit ReferenceSamples.sessions_world
             ReferenceSamples.two_layers ReferenceSamples.prompt_ids
             ReferenceSamples.full_cache tt)
  = inr ([{| arr_shape := [1; 1]; arr_dtype := "int64";
             arr_data := [0%Z] |}],
         ReferenceSamples.full_cache).
Proof.
  erewrite (@generate_result unit ReferenceSamples.sessions_world
              ReferenceSamples.two_layers ReferenceSamples.prompt_ids
              ReferenceSamples.step_logits _ ReferenceSamples.full_cache
              ReferenceSamples.full_cache _ _ tt tt tt).
  - reflexivity.
  - cbv. reflexivity.
  - reflexivity.
  - reflexivity.
  - reflexivity.
Defined.

Lemma generate_failures_witness :
  exists inputs,
    @generate unit ReferenceSamples.broken_session_world
      ReferenceSamples.two_layers ReferenceSamples.prompt_ids
      ReferenceSamples.full_cache tt
    = (tt, [EvSessionRun inputs (inl "Invalid input name")],
       inl (Exception "Invalid input name")).
Proof.
  destruct (@generate_inputs_run unit ReferenceSamples.two_layers
              ReferenceSamples.prompt_ids ReferenceSamples.full_cache tt)
    as [inputs [Hrun _]]; [simpl; lia|].
  exists inputs.
  apply (proj1 (@generate_failures unit ReferenceSamples.broken_session_world
                  ReferenceSamples.two_layers ReferenceSamples.prompt_ids
                  ReferenceSamples.full_cache inputs tt tt Hrun)).
  reflexivity.
Defined.

End ChatOnnxReferenceSpec.
